(** * mousetester-py: the device event-tracking subsystem

    A shallow embedding of [mouse-xcount.py] (the scalar variant, which sums
    horizontal counts) and [mousetester.py] (the path variant, which records a
    timestamped path).  Both files share [find_all_mice], the skeleton of
    [MouseTracker._event_loop] and the two lifecycle methods
    [start_tracking] / [stop_tracking] word for word; they differ in the
    fields set up by [__init__], in the statements executed between the grab
    and the [for] loop, and in the statement guarded by
    [if event.type == ecodes.EV_REL].

    The program is concurrent: the controlling thread calls the lifecycle
    methods while every spawned thread runs [_event_loop].  The embedding is an
    interleaving semantics over an explicit world (the tracker object, the
    table of threads, the device and the console).  One atomic step of a loop
    thread is one blocking call together with the statements up to the next
    blocking call; what the environment answers to a blocking call (does the
    grab succeed, which event is read, does the read raise) is an input of the
    step.  The answers are not constrained: the statements below hold for
    every answer of the environment, and the example runs use answers the
    kernel can give. *)

From Stdlib Require Import ZArith QArith List String Bool Lia.
From stdpp Require Import base option list strings gmap pretty.

Local Open Scope string_scope.
Local Open Scope list_scope.
Local Open Scope Z_scope.

(** ** Python exceptions *)

(** The exception classes that matter to the [except] clauses of the source.
    [IOError] is an alias of [OSError] in Python 3.  [KeyboardInterrupt]
    stands for the classes that derive from [BaseException] but not from
    [Exception]. *)
Inductive ExcClass :=
| OSError
| FileNotFoundError
| PermissionError
| NotADirectoryError
| ValueError
| RuntimeError
| KeyboardInterrupt.

Record PyExc := { exc_class : ExcClass; exc_str : string }.

(** [isinstance(e, OSError)] *)
Definition is_OSError (e : PyExc) : bool :=
  match exc_class e with
  | OSError | FileNotFoundError | PermissionError | NotADirectoryError => true
  | _ => false
  end.

(** [isinstance(e, FileNotFoundError)] *)
Definition is_FileNotFoundError (e : PyExc) : bool :=
  match exc_class e with
  | FileNotFoundError => true
  | _ => false
  end.

(** [isinstance(e, Exception)] *)
Definition is_Exception (e : PyExc) : bool :=
  match exc_class e with
  | KeyboardInterrupt => false
  | _ => true
  end.

(** How a Python call ends: it returns a value or it raises. *)
Inductive Completion (R : Type) :=
| Returns (r : R)
| Raises (e : PyExc).
Arguments Returns {R} r.
Arguments Raises {R} e.

(** What a call writes to the console, in order. *)
Inductive Output :=
| Stdout (line : string)
| Stderr (line : string).

(** ** Input events *)

(** Timestamps are Python floats of seconds; the tracking code only stores
    them, so they are modelled by the rationals. *)
Definition Time := Q.

(** [evdev.InputEvent]: the fields the loop reads, and the value of
    [event.timestamp()]. *)
Record InputEvent := {
  type : Z;
  code : Z;
  value : Z;
  timestamp : Time
}.

(** Constants of [evdev.ecodes] (linux/input-event-codes.h). *)
Module ecodes.
Definition EV_SYN : Z := 0.
Definition EV_KEY : Z := 1.
Definition EV_REL : Z := 2.
Definition REL_X : Z := 0.
Definition REL_Y : Z := 1.
Definition REL_WHEEL : Z := 8.
End ecodes.

(** The MotionEvent of the data model: one axis and a signed delta. *)
Inductive Axis := Horizontal | Vertical.

Record MotionEvent := { axis : Axis; delta : Z; instant : Time }.

(** The raw event the input layer delivers for a motion event. *)
Definition raw (m : MotionEvent) : InputEvent :=
  {| type := ecodes.EV_REL;
     code := match axis m with Horizontal => ecodes.REL_X | Vertical => ecodes.REL_Y end;
     value := delta m;
     timestamp := instant m |}.

(** ** The device namespace and [find_all_mice] *)

(** An opened [InputDevice]: its name and what [capabilities(verbose=False)]
    does, a dict from event type to the list of supported codes. *)
Record InputDevice := {
  name : string;
  capabilities : Completion (gmap Z (list Z))
}.

(** The environment of the enumeration: what [os.listdir('/dev/input')] does
    and what [InputDevice(path)] does for every path. *)
Record DevFS := {
  listdir : Completion (list string);
  open_device : string -> Completion InputDevice
}.

(** [os.path.join('/dev/input', fn)] for a directory entry [fn]. *)
Definition path_join (fn : string) : string := "/dev/input/" +:+ fn.

(** [x in l] on a list of integers. *)
Definition py_in (x : Z) (l : list Z) : bool := bool_decide (x ∈ l).

(** The condition of lines 30-32: [EV_REL in capabilities], and both [REL_X]
    and [REL_Y] in [capabilities.get(EV_REL, [])]. *)
Definition is_mouse (caps : gmap Z (list Z)) : bool :=
  bool_decide (is_Some (caps !! ecodes.EV_REL))
  && py_in ecodes.REL_X (default [] (caps !! ecodes.EV_REL))
  && py_in ecodes.REL_Y (default [] (caps !! ecodes.EV_REL)).

(** The [for path in device_paths] loop.  The body is a [try] whose handler
    catches [(IOError, OSError)] and continues; any other exception leaves
    the function. *)
Fixpoint find_all_mice_loop (fs : DevFS) (device_paths : list string) (mice : list (string * string))
  : Completion (list (string * string)) :=
  match device_paths with
  | [] => Returns mice
  | path :: rest =>
    match open_device fs path with
    | Raises e => if is_OSError e then find_all_mice_loop fs rest mice else Raises e
    | Returns device =>
      match capabilities device with
      | Raises e => if is_OSError e then find_all_mice_loop fs rest mice else Raises e
      | Returns caps =>
        if is_mouse caps
        then find_all_mice_loop fs rest (mice ++ [(path, name device)])
        else find_all_mice_loop fs rest mice
      end
    end
  end.

(** [find_all_mice()]: the console output and the completion. *)
Definition find_all_mice (fs : DevFS) : list Output * Completion (list (string * string)) :=
  match listdir fs with
  | Raises e =>
    if is_FileNotFoundError e
    then ([Stderr "The /dev/input directory was not found."], Returns [])
    else ([], Raises e)
  | Returns entries =>
    let device_paths := map path_join (filter (fun fn => String.prefix "event" fn = true) entries) in
    ([], find_all_mice_loop fs device_paths [])
  end.

(** ** The tracker, its threads and the device *)

(** What distinguishes the two source files: the accumulating fields that
    [__init__] sets up, the message printed after the grab, the statements
    between the grab and the [for] loop, and the statement
    [if event.type == ecodes.EV_REL: ...] of the loop body. *)
Class Variant (A : Type) := {
  init_fields : A;
  grabbed_message : string;
  before_loop : Time -> A -> A;
  on_event : InputEvent -> A -> A
}.

(** Where a thread running [_event_loop] stands. *)
Inductive Pc :=
| AtGrab      (* spawned, about to call [self._device.grab()] *)
| InLoop      (* blocked in [self._device.read_loop()] *)
| AtFinally   (* left the [try], about to run the [finally] block *)
| Done.       (* the execution unit has terminated *)

Global Instance Pc_eq_dec : EqDecision Pc.
Proof. solve_decision. Defined.

(** Calls made on the device, recorded with the calling thread. *)
Inductive DevOp := Grab | Read | Ungrab.

Global Instance DevOp_eq_dec : EqDecision DevOp.
Proof. solve_decision. Defined.

(** What the environment answers to the blocking calls of the loop. *)
Inductive GrabResult :=
| GrabOk (start_time : Time)   (* the grab succeeds; [time.monotonic()] then reads [start_time] *)
| GrabRaises (e : PyExc).

Inductive ReadResult :=
| Yield (event : InputEvent)   (* [read_loop()] yields the next event *)
| StopIteration                (* the generator ends *)
| ReadRaises (e : PyExc).

Inductive UngrabResult :=
| UngrabOk
| UngrabRaises (e : PyExc).

(** One atomic step of the loop thread [tid]. *)
Inductive ThAction :=
| DoGrab (tid : nat) (r : GrabResult)
| DoRead (tid : nat) (r : ReadResult)
| DoUngrab (tid : nat) (r : UngrabResult).

(** One step of the whole program: a call of the controlling thread or a step
    of a loop thread.  [stop_tracking] blocks in [join(timeout=1.0)]; the
    steps the loop threads take while it waits are the argument of
    [CallStop]. *)
Inductive Action :=
| CallStart
| CallStop (during : list ThAction)
| Th (a : ThAction).

Section Tracker.
Context {A : Type} `{V : Variant A}.

(** The [MouseTracker] object: the lifecycle fields and the accumulating
    fields of the variant. *)
Record MouseTracker := {
  _tracking_thread : option nat;
  _is_running : bool;
  fields : A
}.

(** [threads] is indexed by thread identifier; [grabbed] tells whether the
    file descriptor of [self._device] holds the exclusive grab. *)
Record World := {
  self : MouseTracker;
  threads : list Pc;
  grabbed : bool;
  dev_log : list (nat * DevOp);
  console : list Output
}.

(** [MouseTracker.__init__] (the device is opened, nothing else happens). *)
Definition init : World :=
  {| self := {| _tracking_thread := None; _is_running := false; fields := init_fields |};
     threads := [];
     grabbed := false;
     dev_log := [];
     console := [] |}.

Definition set_self (f : MouseTracker -> MouseTracker) (w : World) : World :=
  {| self := f (self w); threads := threads w; grabbed := grabbed w;
     dev_log := dev_log w; console := console w |}.

Definition set_fields (f : A -> A) : World -> World :=
  set_self (fun t => {| _tracking_thread := _tracking_thread t;
                        _is_running := _is_running t; fields := f (fields t) |}).

Definition set_is_running (b : bool) : World -> World :=
  set_self (fun t => {| _tracking_thread := _tracking_thread t;
                        _is_running := b; fields := fields t |}).

Definition set_tracking_thread (o : option nat) : World -> World :=
  set_self (fun t => {| _tracking_thread := o;
                        _is_running := _is_running t; fields := fields t |}).

Definition print (o : Output) (w : World) : World :=
  {| self := self w; threads := threads w; grabbed := grabbed w;
     dev_log := dev_log w; console := console w ++ [o] |}.

Definition set_pc (tid : nat) (pc : Pc) (w : World) : World :=
  {| self := self w; threads := <[tid:=pc]> (threads w); grabbed := grabbed w;
     dev_log := dev_log w; console := console w |}.

(** A call on the device by thread [tid], and the grab state it leaves. *)
Definition device_call (tid : nat) (op : DevOp) (g : bool) (w : World) : World :=
  {| self := self w; threads := threads w; grabbed := g;
     dev_log := dev_log w ++ [(tid, op)]; console := console w |}.

(** [threading.Thread(target=self._event_loop, daemon=True)] followed by
    [start()]: a new thread, identified by its index in the table. *)
Definition spawn (w : World) : nat * World :=
  (length (threads w),
   {| self := self w; threads := threads w ++ [AtGrab]; grabbed := grabbed w;
      dev_log := dev_log w; console := console w |}).

(** The handler [except Exception as e: print(..., file=sys.stderr)]; an
    exception outside [Exception] passes it by.  Either way the [finally]
    block is next. *)
Definition _event_loop_except (tid : nat) (e : PyExc) (w : World) : World :=
  set_pc tid AtFinally
    (if is_Exception e
     then print (Stderr ("An error occurred in the event loop: " +:+ exc_str e)) w
     else w).

(** [_event_loop], from [self._device.grab()] to the first read. *)
Definition _event_loop_grab (tid : nat) (r : GrabResult) (w : World) : World :=
  match r with
  | GrabOk start_time =>
    let w := device_call tid Grab true w in
    let w := print (Stdout grabbed_message) w in
    let w := set_fields (before_loop start_time) w in
    set_pc tid InLoop w
  | GrabRaises e =>
    _event_loop_except tid e (device_call tid Grab (grabbed w) w)
  end.

(** [_event_loop], one turn of [for event in self._device.read_loop()]. *)
Definition _event_loop_read (tid : nat) (r : ReadResult) (w : World) : World :=
  let w := device_call tid Read (grabbed w) w in
  match r with
  | Yield event =>
    if negb (_is_running (self w))
    then set_pc tid AtFinally w               (* break *)
    else set_fields (on_event event) w
  | StopIteration => set_pc tid AtFinally w
  | ReadRaises e => _event_loop_except tid e w
  end.

(** [_event_loop], the [finally] block.  When [ungrab()] raises, the file
    descriptor holds no grab (EINVAL) or the device is gone (ENODEV): no grab
    is held afterwards in either case. *)
Definition _event_loop_finally (tid : nat) (r : UngrabResult) (w : World) : World :=
  let w := device_call tid Ungrab false w in
  match r with
  | UngrabOk => set_pc tid Done (print (Stdout "Mouse device released.") w)
  | UngrabRaises e => set_pc tid Done w
  end.

(** A step of a loop thread is possible only where that thread stands. *)
Definition thread_step (a : ThAction) (w : World) : option World :=
  match a with
  | DoGrab tid r =>
    if decide (threads w !! tid = Some AtGrab) then Some (_event_loop_grab tid r w) else None
  | DoRead tid r =>
    if decide (threads w !! tid = Some InLoop) then Some (_event_loop_read tid r w) else None
  | DoUngrab tid r =>
    if decide (threads w !! tid = Some AtFinally) then Some (_event_loop_finally tid r w) else None
  end.

Fixpoint run_threads (acts : list ThAction) (w : World) : option World :=
  match acts with
  | [] => Some w
  | a :: rest => w' ← thread_step a w; run_threads rest w'
  end.

(** [start_tracking()] *)
Definition start_tracking (w : World) : Completion unit * World :=
  match _tracking_thread (self w) with
  | Some _ =>
    (Returns (), print (Stdout "Tracking is already in progress.") w)
  | None =>
    let w := set_is_running true w in
    let '(tid, w) := spawn w in
    (Returns (), set_tracking_thread (Some tid) w)
  end.

(** [stop_tracking()].  [during] is what the loop threads do between the
    assignment to [_is_running] and the return of [join(timeout=1.0)]; the
    join has timed out when the joined thread is not [Done] by then.  The
    source does not look at the outcome of the join. *)
Definition stop_tracking (during : list ThAction) (w : World)
  : option (Completion unit * World) :=
  match _tracking_thread (self w) with
  | Some tid =>
    if _is_running (self w)
    then
      let w := set_is_running false w in
      w ← run_threads during w;
      let w := set_tracking_thread None w in
      Some (Returns (), print (Stdout "Tracking stopped.") w)
    else Some (Returns (), w)
  | None => Some (Returns (), w)
  end.

Definition step (a : Action) (w : World) : option World :=
  match a with
  | CallStart => Some (snd (start_tracking w))
  | CallStop during => snd <$> stop_tracking during w
  | Th a => thread_step a w
  end.

Fixpoint run (sched : list Action) (w : World) : option World :=
  match sched with
  | [] => Some w
  | a :: rest => w' ← step a w; run rest w'
  end.

(** The worlds the program can be in. *)
Definition reachable (w : World) : Prop := exists sched, run sched init = Some w.

End Tracker.
Arguments MouseTracker A : clear implicits.
Arguments World A : clear implicits.

(** ** The scalar variant, [mouse-xcount.py] *)
Module XCount.

Record Fields := { _total_x_movement : Z }.

(** Lines 164-167, the statement of the loop body after the flag check. *)
Definition event_body (event : InputEvent) (f : Fields) : Fields :=
  if type event =? ecodes.EV_REL then
    if code event =? ecodes.REL_X then
      {| _total_x_movement := _total_x_movement f + value event |}
    else f
  else f.

#[global] Instance variant : Variant Fields := {|
  init_fields := {| _total_x_movement := 0 |};
  grabbed_message := "Mouse device grabbed exclusively.";
  before_loop := fun _ f => f;
  on_event := event_body
|}.

(** [get_total_x_movement()] *)
Definition get_total_x_movement (w : World Fields) : Z :=
  _total_x_movement (fields (self w)).

End XCount.

(** ** The path variant, [mousetester.py] *)
Module Tester.

Definition PathPoint : Type := Time * Z * Z.

Record Fields := {
  path_data : list PathPoint;
  _current_x : Z;
  _current_y : Z
}.

(** Lines 148-150: [start_time = time.monotonic()] and the first append. *)
Definition record_start (start_time : Time) (f : Fields) : Fields :=
  {| path_data := path_data f ++ [(start_time, _current_x f, _current_y f)];
     _current_x := _current_x f;
     _current_y := _current_y f |}.

(** Lines 155-163, the statement of the loop body after the flag check. *)
Definition event_body (event : InputEvent) (f : Fields) : Fields :=
  if type event =? ecodes.EV_REL then
    let f :=
      if code event =? ecodes.REL_X then
        {| path_data := path_data f;
           _current_x := _current_x f + value event;
           _current_y := _current_y f |}
      else if code event =? ecodes.REL_Y then
        {| path_data := path_data f;
           _current_x := _current_x f;
           _current_y := _current_y f + - value event |}
      else f in
    let event_time := timestamp event in
    {| path_data := path_data f ++ [(event_time, _current_x f, _current_y f)];
       _current_x := _current_x f;
       _current_y := _current_y f |}
  else f.

#[global] Instance variant : Variant Fields := {|
  init_fields := {| path_data := []; _current_x := 0; _current_y := 0 |};
  grabbed_message := "Mouse device grabbed exclusively. Tracking has begun.";
  before_loop := record_start;
  on_event := event_body
|}.

(** [get_path()]: a copy of [path_data]. *)
Definition get_path (w : World Fields) : list PathPoint :=
  path_data (fields (self w)).

Definition point_time (p : PathPoint) : Time := fst (fst p).
Definition point_xy (p : PathPoint) : Z * Z := (snd (fst p), snd p).

End Tester.

(** ** Schedules and measures used by the statements *)

(** The loop thread [tid] reads the events [evs] one after the other. *)
Definition deliver (tid : nat) (evs : list InputEvent) : list Action :=
  map (fun e => Th (DoRead tid (Yield e))) evs.

(** One tracking session on a tracker that is not tracking: the controller
    starts it, the new thread [tid] grabs the device at [start_time] and reads
    [evs]. *)
Definition session (tid : nat) (start_time : Time) (evs : list InputEvent) : list Action :=
  CallStart :: Th (DoGrab tid (GrabOk start_time)) :: deliver tid evs.

Definition sum_list (l : list Z) : Z := foldr Z.add 0 l.

Definition is_rel (e : InputEvent) : bool := type e =? ecodes.EV_REL.
Definition is_rel_x (e : InputEvent) : bool := is_rel e && (code e =? ecodes.REL_X).
Definition is_rel_y (e : InputEvent) : bool := is_rel e && (code e =? ecodes.REL_Y).

(** The sum of the values of the horizontal (vertical) motion events. *)
Definition sum_x (evs : list InputEvent) : Z :=
  sum_list (map value (List.filter is_rel_x evs)).
Definition sum_y (evs : list InputEvent) : Z :=
  sum_list (map value (List.filter is_rel_y evs)).

Definition horizontal (d : Z) (t : Time) : InputEvent :=
  raw {| axis := Horizontal; delta := d; instant := t |}.
Definition vertical (d : Z) (t : Time) : InputEvent :=
  raw {| axis := Vertical; delta := d; instant := t |}.

(** The signed displacement of a motion event on the two axes of the path. *)
Definition dx (m : MotionEvent) : Z :=
  match axis m with Horizontal => delta m | Vertical => 0 end.
Definition dy (m : MotionEvent) : Z :=
  match axis m with Horizontal => 0 | Vertical => - delta m end.

(** The thread a step belongs to, and the steps that are not a grab. *)
Definition thread_of (a : ThAction) : nat :=
  match a with DoGrab tid _ | DoRead tid _ | DoUngrab tid _ => tid end.

Definition no_grab (a : ThAction) : bool :=
  match a with DoGrab _ _ => false | _ => true end.

(** How often thread [tid] called [op] on the device, and its last call. *)
Definition calls (tid : nat) (op : DevOp) (log : list (nat * DevOp)) : nat :=
  length (List.filter (fun c => bool_decide (c = (tid, op))) log).

Definition last_call (tid : nat) (log : list (nat * DevOp)) : option DevOp :=
  snd <$> last (List.filter (fun c => bool_decide (fst c = tid)) log).

(** A loop thread that is past a successful grab and has not run its
    [finally] block. *)
Definition holding (pc : Pc) : bool :=
  match pc with InLoop | AtFinally => true | _ => false end.

(** Non-decreasing timestamps. *)
Fixpoint nondecreasing (ts : list Time) : Prop :=
  match ts with
  | [] => True
  | t :: rest => match rest with [] => True | t' :: _ => (t <= t')%Q end /\ nondecreasing rest
  end.

(** The world after the loop thread [tid] has processed [evs] while the flag
    stayed set. *)
Definition events_done {A} `{V : Variant A} (tid : nat) (evs : list InputEvent)
  (w : World A) : World A :=
  {| self := {| _tracking_thread := _tracking_thread (self w);
                _is_running := _is_running (self w);
                fields := foldl (fun f e => on_event e f) (fields (self w)) evs |};
     threads := threads w;
     grabbed := grabbed w;
     dev_log := dev_log w ++ map (fun _ => (tid, Read)) evs;
     console := console w |}.

(** The points a path gains from the motion events [ms] when the position
    before them is [(x, y)]. *)
Fixpoint walk (x y : Z) (ms : list MotionEvent) : list Tester.PathPoint :=
  match ms with
  | [] => []
  | m :: ms => (instant m, x + dx m, y + dy m) :: walk (x + dx m) (y + dy m) ms
  end.

(** The resource discipline of the loop threads: a thread has called
    [ungrab()] exactly once, as its last call on the device, when it has
    terminated, and never before; a thread that was never spawned has not
    called it; and whenever the device is grabbed some thread is in its [try]
    block past the grab or about to run its [finally] block. *)
Definition ungrab_discipline {A} (w : World A) : Prop :=
  (forall tid,
      match threads w !! tid with
      | Some Done =>
        calls tid Ungrab (dev_log w) = 1%nat /\ last_call tid (dev_log w) = Some Ungrab
      | _ => calls tid Ungrab (dev_log w) = 0%nat
      end)
  /\ (grabbed w = true ->
      exists tid pc, threads w !! tid = Some pc /\ holding pc = true).

(** An example run of the scalar variant in which the loop leaves through the
    flag: one event is counted, the controller stops, the next event makes the
    loop break and the [finally] block runs while the controller joins. *)
Definition stop_by_flag : list Action :=
  [ CallStart;
    Th (DoGrab 0 (GrabOk 0%Q));
    Th (DoRead 0 (Yield (horizontal 5 1%Q)));
    CallStop [DoRead 0 (Yield (horizontal 7 2%Q)); DoUngrab 0 UngrabOk] ].

Definition stopped_by_flag : World XCount.Fields :=
  Eval vm_compute in default init (run stop_by_flag init).

(** A tracker that is tracking: started, device grabbed, the loop blocked in
    its first read. *)
Definition tracking_world : World XCount.Fields :=
  Eval vm_compute in default init (run [CallStart; Th (DoGrab 0 (GrabOk 0%Q))] init).

(** [stop_tracking()] on [tracking_world] when no event arrives during the
    one second of the join: the join times out. *)
Definition timed_out_world : World XCount.Fields :=
  Eval vm_compute in default init (run [CallStop []] tracking_world).

(** A tracker right after [start_tracking()]. *)
Definition started_world : World XCount.Fields :=
  Eval vm_compute in default init (run [CallStart] init).

(** A second session on a tracker: the controller stops (the loop threads do
    [d1] while it joins), starts again, the new thread [tid] grabs the device
    at [start_time] and reads [evs], and the controller stops again (the loop
    threads do [d2] while it joins). *)
Definition restart (tid : nat) (d1 : list ThAction) (start_time : Time)
  (evs : list InputEvent) (d2 : list ThAction) : list Action :=
  CallStop d1 :: session tid start_time evs ++ [CallStop d2].

(** The path tracker after the example run [stop_by_flag]. *)
Definition stopped_by_flag_path : World Tester.Fields :=
  Eval vm_compute in default init (run stop_by_flag init).

(** A second session with the single event (Horizontal, +1), on the trackers
    of the example run. *)
Definition second_session : list Action := restart 1 [] 3%Q [horizontal 1 4%Q] [].

Definition restarted : World XCount.Fields :=
  Eval vm_compute in default init (run second_session stopped_by_flag).

Definition restarted_path : World Tester.Fields :=
  Eval vm_compute in default init (run second_session stopped_by_flag_path).

(** The path follows the position: the last recorded point is at
    [(_current_x, _current_y)], and while nothing is recorded no thread is
    inside its loop. *)
Definition path_tracks_position (w : World Tester.Fields) : Prop :=
  match last (Tester.get_path w) with
  | Some p =>
    Tester.point_xy p
    = (Tester._current_x (fields (self w)), Tester._current_y (fields (self w)))
  | None => forall tid, threads w !! tid <> Some InLoop
  end.

(** A recorded session in which the wall clock is stepped back between two
    events: the loop starts at 100 s on the monotonic clock, the events carry
    the kernel's realtime stamps 1700000000.5 s and 1700000000.25 s. *)
Definition clock_stepped_back : list Action :=
  session 0 100%Q [horizontal 1 (3400000001 # 2)%Q; horizontal 1 (6800000001 # 4)%Q].

(** A first session (start at 100 s monotonic, one event stamped 1700000000 s)
    that is stopped and whose loop leaves at the next event and releases the
    device, followed by a second session that starts at 105 s monotonic. *)
Definition two_sessions : list Action :=
  session 0 100%Q [horizontal 1 1700000000%Q]
  ++ [CallStop [DoRead 0 (Yield (horizontal 1 1700000001%Q)); DoUngrab 0 UngrabOk]]
  ++ session 1 105%Q [].

(** A path tracker that is tracking, and a scroll-wheel event. *)
Definition tracking_path_world : World Tester.Fields :=
  Eval vm_compute in default init (run [CallStart; Th (DoGrab 0 (GrabOk 0%Q))] init).

Definition wheel : InputEvent :=
  {| type := ecodes.EV_REL; code := ecodes.REL_WHEEL; value := -1; timestamp := 1%Q |}.

(** What [find_all_mice] collects for one path when nothing but [OSError]s
    are raised: the path and the name of a device that opens, answers the
    capability query and has both relative axes. *)
Definition candidate (fs : DevFS) (path : string) : option (string * string) :=
  match open_device fs path with
  | Returns device =>
    match capabilities device with
    | Returns caps => if is_mouse caps then Some (path, name device) else None
    | Raises _ => None
    end
  | Raises _ => None
  end.

(** Every failure to open or to query a device is an [OSError] (permission
    denied, device busy, I/O error). *)
Definition device_errors_are_OSErrors (fs : DevFS) : Prop :=
  forall path,
    match open_device fs path with
    | Raises e => is_OSError e = true
    | Returns device =>
      match capabilities device with
      | Raises e => is_OSError e = true
      | Returns _ => True
      end
    end.

(** A namespace that cannot be listed for lack of permission. *)
Definition permission_denied : PyExc :=
  {| exc_class := PermissionError; exc_str := "[Errno 13] Permission denied: '/dev/input'" |}.

Definition unreadable_namespace : DevFS :=
  {| listdir := Raises permission_denied;
     open_device := fun _ => Raises permission_denied |}.

(** A namespace with a mouse, a device that cannot be opened, a keyboard and
    an entry that is not an event node. *)
Definition example_namespace : DevFS :=
  {| listdir := Returns ["event0"; "event1"; "mice"; "event2"];
     open_device := fun path =>
       if String.eqb path "/dev/input/event0" then
         Returns {| name := "Logitech G Pro";
                    capabilities := Returns (<[1 := [272; 273]]> {[ 2 := [0; 1; 8] ]}) |}
       else if String.eqb path "/dev/input/event2" then
         Returns {| name := "AT Translated Set 2 keyboard";
                    capabilities := Returns {[ 1 := [1; 2; 3] ]} |}
       else Raises permission_denied |}.

(** ** [select_mouse_device] *)

(** Python indexing [l[i]]: a negative index counts from the end, and an
    index outside the list raises [IndexError] ([None]). *)
Definition py_getitem {A : Type} (l : list A) (i : Z) : option A :=
  if 0 <=? i then l !! Z.to_nat i
  else if - Z.of_nat (length l) <=? i then l !! Z.to_nat (Z.of_nat (length l) + i)
  else None.

(** How [select_mouse_device] ends: it returns a path, or [input()] raises
    [EOFError] at the end of the input, or the indexing raises [IndexError];
    the function catches neither. *)
Inductive Selection :=
| Chosen (path : string)
| EndOfInput
| IndexOutOfRange.

Definition prompt : Output := Stdout "Please select a mouse by number: ".

(** Lines 50-52, the numbered menu. *)
Definition menu (devices : list (string * string)) : list Output :=
  Stdout "Available mouse devices:"
  :: imap (fun i d => Stdout ("  " +:+ pretty (i + 1)%nat +:+ ": " +:+ snd d
                               +:+ " (" +:+ fst d +:+ ")")) devices.

Definition invalid_number (devices : list (string * string)) : Output :=
  Stdout ("Invalid number. Please enter a number between 1 and "
          +:+ pretty (length devices) +:+ ".").

Definition not_a_number : Output :=
  Stdout "That is not a valid number. Please try again.".

Section Select.
(** [int(choice_str)]: [None] when it raises [ValueError]. *)
Variable int_of : string -> option Z.

(** The [while True] loop of lines 54-63 over the lines the operator types;
    [out] is what has been written so far. *)
Fixpoint select_loop (devices : list (string * string)) (lines : list string)
  (out : list Output) : list Output * Selection :=
  match lines with
  | [] => (out ++ [prompt], EndOfInput)
  | choice_str :: rest =>
    let out := out ++ [prompt] in
    match int_of choice_str with
    | None => select_loop devices rest (out ++ [not_a_number])
    | Some choice_num =>
      if (1 <=? choice_num) && (choice_num <=? Z.of_nat (length devices))
      then match py_getitem devices (choice_num - 1) with
           | Some d => (out, Chosen (fst d))
           | None => (out, IndexOutOfRange)
           end
      else select_loop devices rest (out ++ [invalid_number devices])
    end
  end.

(** [select_mouse_device(devices)] *)
Definition select_mouse_device (devices : list (string * string)) (lines : list string)
  : list Output * Selection :=
  select_loop devices lines (menu devices).

End Select.

(** ** [plot_mouse_path] *)

(** What [plot_mouse_path] does with its data: it gives up with one of two
    messages, or it draws the two scatter series over [plot_times]. *)
Inductive PlotOutcome :=
| NotEnoughData
| NoMovement
| Shown (plot_times : list Q) (delta_x delta_y : list Z).

(** [[c[i] - c[i-1] for i in range(1, len(c))]] *)
Definition deltas (coords : list Z) : list Z :=
  map (fun i => nth i coords 0 - nth (i - 1) coords 0) (seq 1 (length coords - 1)).

(** [plot_mouse_path(path_data)].  The float arithmetic on the timestamps is
    carried out on rationals. *)
Definition plot_mouse_path (path_data : list Tester.PathPoint)
  : list Output * PlotOutcome :=
  if bool_decide (path_data = []) || (length path_data <? 2)%nat then
    ([Stdout "Not enough data points were recorded to generate a plot."], NotEnoughData)
  else
    let timestamps := map Tester.point_time path_data in
    let x_coords := map (fun p => fst (Tester.point_xy p)) path_data in
    let y_coords := map (fun p => snd (Tester.point_xy p)) path_data in
    let start_time := nth 0 timestamps 0%Q in
    let relative_times_ms := map (fun t => ((t - start_time) * 1000)%Q) timestamps in
    let delta_x := deltas x_coords in
    let delta_y := deltas y_coords in
    let plot_times := tail relative_times_ms in
    if bool_decide (plot_times = []) then
      ([Stdout "No movement was detected to plot."], NoMovement)
    else
      ([Stdout "Displaying plot. Close the plot window to exit the program."],
       Shown plot_times delta_x delta_y).

(** ** Measures used by the further statements *)

(** The paths [find_all_mice] tries to open. *)
Definition event_paths (entries : list string) : list string :=
  map path_join (filter (fun fn => String.prefix "event" fn = true) entries).

(** The calls of thread [tid] on the device, in order. *)
Definition calls_of (tid : nat) (log : list (nat * DevOp)) : list DevOp :=
  map snd (List.filter (fun c => bool_decide (fst c = tid)) log).

(** The device protocol of one loop thread: nothing before it runs, then one
    grab, then reads, then one ungrab, after which it has terminated. *)
Definition follows_protocol (pc : option Pc) (ops : list DevOp) : Prop :=
  match pc with
  | None | Some AtGrab => ops = []
  | Some InLoop | Some AtFinally => exists n, ops = Grab :: repeat Read n
  | Some Done => exists n, ops = Grab :: repeat Read n ++ [Ungrab]
  end.

(** The lifecycle fields agree: the flag is set exactly when a thread is
    recorded, and the recorded thread exists. *)
Definition lifecycle_consistent {A} (w : World A) : Prop :=
  (_is_running (self w) = true <-> is_Some (_tracking_thread (self w)))
  /\ (forall tid, _tracking_thread (self w) = Some tid -> (tid < length (threads w))%nat).

(** The scalar tracker and the path tracker are in step: same lifecycle
    fields, threads, device and device calls, and the total of the one is the
    x position of the other. *)
Definition in_step (wx : World XCount.Fields) (wp : World Tester.Fields) : Prop :=
  _tracking_thread (self wx) = _tracking_thread (self wp)
  /\ _is_running (self wx) = _is_running (self wp)
  /\ threads wx = threads wp
  /\ grabbed wx = grabbed wp
  /\ dev_log wx = dev_log wp
  /\ XCount._total_x_movement (fields (self wx)) = Tester._current_x (fields (self wp)).

(** A loop that fails after its events: the thread [tid] reads [evs], the next
    read raises [e], and the [finally] block runs with the answer [r]. *)
Definition read_failure (tid : nat) (evs : list InputEvent) (e : PyExc) (r : UngrabResult)
  : list Action :=
  deliver tid evs ++ [Th (DoRead tid (ReadRaises e)); Th (DoUngrab tid r)].

(** A device that disappears while it is read. *)
Definition no_such_device : PyExc :=
  {| exc_class := OSError; exc_str := "[Errno 19] No such device" |}.

(** The exception that opening or querying the device at [path] raises, if
    any. *)
Definition failure (fs : DevFS) (path : string) : option PyExc :=
  match open_device fs path with
  | Raises e => Some e
  | Returns device =>
    match capabilities device with
    | Raises e => Some e
    | Returns _ => None
    end
  end.

(** A device that answers with an exception outside [OSError]. *)
Definition broken_device : PyExc :=
  {| exc_class := ValueError; exc_str := "invalid capability data" |}.

(** The example namespace with a third event node whose query raises
    [ValueError]. *)
Definition broken_namespace : DevFS :=
  {| listdir := Returns ["event0"; "event1"; "event3"];
     open_device := fun path =>
       if String.eqb path "/dev/input/event3" then
         Returns {| name := "odd"; capabilities := Raises broken_device |}
       else open_device example_namespace path |}.

(** The example namespace with other answers for the nodes that are not
    event nodes. *)
Definition other_nodes_differ : DevFS :=
  {| listdir := listdir example_namespace;
     open_device := fun path =>
       if String.eqb path "/dev/input/mice" then Raises broken_device
       else open_device example_namespace path |}.

(** A typed line that [select_mouse_device] accepts: it parses to a number
    between 1 and the number of devices. *)
Definition accepted (int_of : string -> option Z) (devices : list (string * string))
  (line : string) : bool :=
  match int_of line with
  | Some n => (1 <=? n) && (n <=? Z.of_nat (length devices))
  | None => false
  end.

(** What [select_mouse_device] writes for a line it does not accept. *)
Definition rejection (int_of : string -> option Z) (devices : list (string * string))
  (line : string) : list Output :=
  [prompt; match int_of line with
           | Some _ => invalid_number devices
           | None => not_a_number
           end].

(** A parser for the examples: it knows the numerals 0 to 3 and "-1". *)
Definition small_int (s : string) : option Z :=
  if String.eqb s "0" then Some 0
  else if String.eqb s "1" then Some 1
  else if String.eqb s "2" then Some 2
  else if String.eqb s "3" then Some 3
  else if String.eqb s "-1" then Some (-1)
  else None.

Definition two_mice : list (string * string) :=
  [("/dev/input/event4", "Logitech G Pro"); ("/dev/input/event7", "Razer Viper")].

(** The path of the scenario (Horizontal, +3), (Vertical, +4). *)
Definition example_path : list Tester.PathPoint :=
  [(0%Q, 0, 0); (1%Q, 3, 0); (2%Q, 3, -4)].

(** A path tracker that is started and stopped before its loop thread has
    run at all. *)
Definition stopped_before_grab : World Tester.Fields :=
  Eval vm_compute in default init (run [CallStart; CallStop []] init).

(** The late loop of [stopped_before_grab] grabs the device at time 5. *)
Definition late_start_point : World Tester.Fields :=
  Eval vm_compute in
    default init (run_threads [DoGrab 0 (GrabOk 5%Q)] stopped_before_grab).

(** Every thread follows the device protocol. *)
Definition protocol_kept {A} (w : World A) : Prop :=
  forall tid, follows_protocol (threads w !! tid) (calls_of tid (dev_log w)).

(** ** [main] *)

(** What a run of [main] depends on: the effective user id, the device
    namespace, the lines typed at the selection prompt and how [int()] reads
    them, what [InputDevice(device_path)] does in [MouseTracker.__init__]
    (the device's name, or an exception), the characters [get_char()]
    returns, and the steps the loop threads take while [main] waits for the
    end of the measurement and while [stop_tracking()] joins. *)
Record Env := {
  euid : Z;
  devfs : DevFS;
  int_of_line : string -> option Z;
  typed_lines : list string;
  open_tracker : string -> Completion string;
  keys : list string;
  while_tracking : list ThAction;
  while_joining : list ThAction
}.

(** How [main] ends: [sys.exit(code)], a normal return, an exception that
    nothing catches ([EOFError] from [input()], [IndexError], or one of the
    modelled classes), or a wait for a key that never comes. *)
Inductive MainOutcome :=
| Exit (code : Z)
| Finished
| Propagates (e : PyExc)
| InputEnds
| IndexFails
| WaitsForever.

(** The newline character of the messages that start with an empty line. *)
Definition nl : string := String (Ascii.ascii_of_nat 10) EmptyString.

(** [while True: char = get_char(); if char == ' ': ...; break]: the keys
    left after the first SPACE, or [None] when no SPACE comes. *)
Fixpoint wait_for_space (keys : list string) : option (list string) :=
  match keys with
  | [] => None
  | char :: rest => if String.eqb char " " then Some rest else wait_for_space rest
  end.

(** The statements both [main] functions start with (mouse-xcount.py lines
    84-102, mousetester.py lines 72-90): the root check, the enumeration, the
    selection and the construction of the tracker.  The result is the console
    so far and either the way [main] ends or the path of the device the
    tracker holds. *)
Definition startup (env : Env) : list Output * (MainOutcome + string) :=
  if negb (euid env =? 0) then
    ([Stdout "This script requires root privileges to access raw mouse events.";
      Stdout "Please run with 'sudo python3 main.py'"], inl (Exit 1))
  else
    let '(out, found) := find_all_mice (devfs env) in
    match found with
    | Raises e => (out, inl (Propagates e))
    | Returns available_mice =>
      if bool_decide (available_mice = []) then
        (out ++ [Stdout "No mouse devices could be found. Exiting."], inl (Exit 1))
      else
        let '(out2, selection) :=
          select_mouse_device (int_of_line env) available_mice (typed_lines env) in
        let out := out ++ out2 in
        match selection with
        | EndOfInput => (out, inl InputEnds)
        | IndexOutOfRange => (out, inl IndexFails)
        | Chosen selected_device_path =>
          match open_tracker env selected_device_path with
          | Raises e =>
            if is_Exception e
            then (out ++ [Stdout ("Failed to initialise tracker: " +:+ exc_str e)],
                  inl (Exit 1))
            else (out, inl (Propagates e))
          | Returns device_name =>
            (out ++ [Stdout ("Using mouse: " +:+ device_name +:+ " at "
                             +:+ selected_device_path)],
             inr selected_device_path)
          end
        end
    end.

(** A new tracker whose console already holds [out]. *)
Definition init_with_console {A} `{V : Variant A} (out : list Output) : World A :=
  {| self := self init; threads := threads init; grabbed := grabbed init;
     dev_log := dev_log init; console := out |}.

Definition total_line (total : Z) : Output :=
  Stdout (nl +:+ "Total counts moved by the mouse in the x-direction: " +:+ pretty total).

(** [main()] of mouse-xcount.py.  [None] when the steps of [env] do not fit
    the threads that exist. *)
Definition main_xcount (env : Env) : option (list Output * MainOutcome) :=
  match startup env with
  | (out, inl outcome) => Some (out, outcome)
  | (out, inr _) =>
    let out := out ++ [Stdout (nl +:+ "Press the SPACE bar to start measuring mouse movement in the x-direction.")] in
    match wait_for_space (keys env) with
    | None => Some (out, WaitsForever)
    | Some keys =>
      let out := out ++ [Stdout "Measurement started. Press the SPACE bar again to stop measuring."] in
      let tracker : World XCount.Fields := init_with_console out in
      let tracker := snd (start_tracking tracker) in
      tracker ← run_threads (while_tracking env) tracker;
      match wait_for_space keys with
      | None => Some (console tracker, WaitsForever)
      | Some _ =>
        let tracker := print (Stdout "Measurement stopped.") tracker in
        '(_, tracker) ← stop_tracking (while_joining env) tracker;
        let total_x_movement := XCount.get_total_x_movement tracker in
        Some (console (print (total_line total_x_movement) tracker), Exit 0)
      end
    end
  end.

(** [main()] of mousetester.py, with the outcome of [plot_mouse_path] when
    it is reached.  The countdown and the tracking time are waits of the
    controlling thread; the loop threads step during the second. *)
Definition main_tester (env : Env)
  : option (list Output * MainOutcome * option PlotOutcome) :=
  match startup env with
  | (out, inl outcome) => Some (out, outcome, None)
  | (out, inr _) =>
    let out := out ++ [Stdout (nl +:+ "Prepare to track mouse movement. Starting in...")]
                   ++ map (fun i : Z => Stdout (pretty i +:+ "...")) [3; 2; 1]
                   ++ [Stdout "Start tracking!"] in
    let tracker : World Tester.Fields := init_with_console out in
    let tracker := snd (start_tracking tracker) in
    tracker ← run_threads (while_tracking env) tracker;
    '(_, tracker) ← stop_tracking (while_joining env) tracker;
    let path := Tester.get_path tracker in
    let '(plot_out, plotted) := plot_mouse_path path in
    Some (console tracker ++ plot_out, Finished, Some plotted)
  end.

(** The steps of a loop thread that grabs the device and reads [evs]. *)
Definition loop_reads (tid : nat) (start_time : Time) (evs : list InputEvent)
  : list ThAction :=
  DoGrab tid (GrabOk start_time) :: map (fun e => DoRead tid (Yield e)) evs.

(** An operator who picks device 1 and presses SPACE twice, while the mouse
    reports +5, -2 and +10 on the horizontal axis. *)
Definition example_env : Env :=
  {| euid := 0;
     devfs := example_namespace;
     int_of_line := small_int;
     typed_lines := ["1"];
     open_tracker := fun _ => Returns "Logitech G Pro";
     keys := ["x"; " "; " "];
     while_tracking :=
       loop_reads 0 0%Q [horizontal 5 1%Q; horizontal (-2) 2%Q; horizontal 10 3%Q];
     while_joining := [] |}.

(** What [main] of mouse-xcount.py writes in [example_env]. *)
Definition example_console : list Output :=
  Eval vm_compute in
    match main_xcount example_env with Some (out, _) => out | None => [] end.

(** The same operator with mousetester.py, while the mouse reports +3 on the
    horizontal and +4 on the vertical axis. *)
Definition example_motion : list MotionEvent :=
  [ {| axis := Horizontal; delta := 3; instant := 1%Q |};
    {| axis := Vertical; delta := 4; instant := 2%Q |} ].

Definition example_env_path : Env :=
  {| euid := 0;
     devfs := example_namespace;
     int_of_line := small_int;
     typed_lines := ["1"];
     open_tracker := fun _ => Returns "Logitech G Pro";
     keys := [];
     while_tracking := loop_reads 0 0%Q (map raw example_motion);
     while_joining := [] |}.

Definition example_console_path : list Output :=
  Eval vm_compute in
    match main_tester example_env_path with Some (out, _, _) => out | None => [] end.

Definition example_plot : option PlotOutcome :=
  Eval vm_compute in
    match main_tester example_env_path with Some (_, _, plotted) => plotted | None => None end.

(** ** The exits of the loop and the end of the interpreter *)

(** Whether a turn of the [for] loop leaves it: an event read while the flag
    is cleared ([break]), the end of the generator, or an exception. *)
Definition leaves_loop (is_running : bool) (r : ReadResult) : bool :=
  match r with
  | Yield _ => negb is_running
  | StopIteration | ReadRaises _ => true
  end.

(** The end of the interpreter, when [main] returns or calls [sys.exit]: the
    loop threads are daemon threads (line 181 of mouse-xcount.py, line 177 of
    mousetester.py, [daemon=True]) and end with it wherever they stand; no
    statement of theirs runs any more, their [finally] block included. *)
Definition interpreter_exit {A} (w : World A) : World A :=
  {| self := self w; threads := map (fun _ => Done) (threads w); grabbed := grabbed w;
     dev_log := dev_log w; console := console w |}.

(** The tracker of mouse-xcount.py at the moment [main] reaches
    [sys.exit(0)]: the statements of [main_xcount] on the tracker. *)
Definition main_xcount_tracker (env : Env) : option (World XCount.Fields) :=
  match startup env with
  | (out, inl _) => None
  | (out, inr _) =>
    let out := out ++ [Stdout (nl +:+ "Press the SPACE bar to start measuring mouse movement in the x-direction.")] in
    match wait_for_space (keys env) with
    | None => None
    | Some keys =>
      let out := out ++ [Stdout "Measurement started. Press the SPACE bar again to stop measuring."] in
      let tracker : World XCount.Fields := init_with_console out in
      let tracker := snd (start_tracking tracker) in
      tracker ← run_threads (while_tracking env) tracker;
      match wait_for_space keys with
      | None => None
      | Some _ =>
        let tracker := print (Stdout "Measurement stopped.") tracker in
        '(_, tracker) ← stop_tracking (while_joining env) tracker;
        Some (print (total_line (XCount.get_total_x_movement tracker)) tracker)
      end
    end
  end.

(** The operator of [example_env] with a mouse that moves by +5 and is then
    at rest: no event arrives after the second SPACE, so the loop stays
    blocked in its read while [stop_tracking()] joins. *)
Definition mouse_at_rest : Env :=
  {| euid := 0;
     devfs := example_namespace;
     int_of_line := small_int;
     typed_lines := ["1"];
     open_tracker := fun _ => Returns "Logitech G Pro";
     keys := [" "; " "];
     while_tracking := loop_reads 0 0%Q [horizontal 5 1%Q];
     while_joining := [] |}.

Definition tracker_at_exit : World XCount.Fields :=
  Eval vm_compute in default init (main_xcount_tracker mouse_at_rest).

(** ** The points of a session *)

(** The displacement of a relative event on the two axes of the path: its
    value on the horizontal axis, its negated value on the vertical axis,
    nothing for any other code. *)
Definition rel_dx (e : InputEvent) : Z :=
  if code e =? ecodes.REL_X then value e else 0.
Definition rel_dy (e : InputEvent) : Z :=
  if code e =? ecodes.REL_Y then - value e else 0.

(** The points a path gains from the events [evs] when the position before
    them is [(x, y)]: one point per relative event, at its predecessor's
    position moved by the event's displacement, stamped with the event's
    time; the other events add nothing. *)
Fixpoint trace (x y : Z) (evs : list InputEvent) : list Tester.PathPoint :=
  match evs with
  | [] => []
  | e :: evs =>
    if is_rel e
    then (timestamp e, x + rel_dx e, y + rel_dy e)
         :: trace (x + rel_dx e) (y + rel_dy e) evs
    else trace x y evs
  end.

(** * Properties *)

Section Runs.
Context {A : Type} `{V : Variant A}.
Implicit Types (w : World A) (sched : list Action) (acts : list ThAction).

Lemma run_app sched1 sched2 w :
  run (sched1 ++ sched2) w = run sched1 w ≫= run sched2.
Proof.
  revert w; induction sched1 as [|a sched1 IH]; intros w; simpl; [done|].
  destruct (step a w) as [w'|]; simpl; [apply IH | done].
Qed.

Lemma start_tracking_busy w tid :
  _tracking_thread (self w) = Some tid ->
  start_tracking w = (Returns (), print (Stdout "Tracking is already in progress.") w).
Proof. intros H. unfold start_tracking. by rewrite H. Qed.

Lemma start_tracking_idle w :
  _tracking_thread (self w) = None ->
  start_tracking w
  = (Returns (),
     {| self := {| _tracking_thread := Some (length (threads w));
                   _is_running := true;
                   fields := fields (self w) |};
        threads := threads w ++ [AtGrab];
        grabbed := grabbed w;
        dev_log := dev_log w;
        console := console w |}).
Proof. intros H. unfold start_tracking. by rewrite H. Qed.

Lemma run_deliver tid evs w :
  threads w !! tid = Some InLoop ->
  _is_running (self w) = true ->
  run (deliver tid evs) w = Some (events_done tid evs w).
Proof.
  revert w; induction evs as [|e evs IH]; intros w Hpc Hrun.
  - destruct w as [[th r f] ths g log con]; simpl in *.
    unfold events_done; simpl. by rewrite app_nil_r.
  - simpl. rewrite decide_True by done. simpl.
    unfold _event_loop_read; simpl. rewrite Hrun; simpl.
    rewrite IH by (simpl; done).
    f_equal. unfold events_done; simpl. rewrite Hrun. by rewrite <- app_assoc.
Qed.

End Runs.

(** ** The scalar total *)

Lemma xcount_fold_total evs (f : XCount.Fields) :
  XCount._total_x_movement (foldl (fun f e => XCount.event_body e f) f evs)
  = XCount._total_x_movement f + sum_x evs.
Proof.
  revert f; induction evs as [|e evs IH]; intros f; simpl.
  - unfold sum_x; simpl. lia.
  - rewrite IH. unfold sum_x, XCount.event_body, is_rel_x, is_rel; simpl.
    destruct (type e =? ecodes.EV_REL); simpl; [|lia].
    destruct (code e =? ecodes.REL_X); simpl; lia.
Qed.

Lemma sum_x_horizontal (ds : list (Z * Time)) :
  sum_x (map (fun d => horizontal (fst d) (snd d)) ds) = sum_list (map fst ds).
Proof.
  induction ds as [|[d t] ds IH]; [done|].
  unfold sum_x in *; simpl. by rewrite IH.
Qed.

Lemma xcount_session t0 evs :
  exists w, run (session 0 t0 evs) (init : World XCount.Fields) = Some w
            /\ XCount.get_total_x_movement w = sum_x evs.
Proof.
  unfold session. eexists; split.
  - simpl. unfold _event_loop_grab; simpl. apply run_deliver; done.
  - unfold XCount.get_total_x_movement, events_done; simpl.
    by rewrite xcount_fold_total.
Qed.

(** C1.  A new scalar tracker is started, its loop grabs the device and
    processes the events [evs]; [get_total_x_movement()] then returns the sum
    of the values of the horizontal motion events among them, whatever the
    other events are.  When all events are horizontal with deltas d1..dn the
    total is d1+...+dn, and the deltas +5, -2, +10 give 13. *)
Theorem C1_total_is_sum_of_horizontal_deltas :
  (forall t0 evs,
      exists w, run (session 0 t0 evs) (init : World XCount.Fields) = Some w
                /\ XCount.get_total_x_movement w = sum_x evs)
  /\ (forall t0 (ds : list (Z * Time)),
      exists w, run (session 0 t0 (map (fun d => horizontal (fst d) (snd d)) ds))
                    (init : World XCount.Fields) = Some w
                /\ XCount.get_total_x_movement w = sum_list (map fst ds))
  /\ (forall t0 t1 t2 t3,
      exists w, run (session 0 t0 [horizontal 5 t1; horizontal (-2) t2; horizontal 10 t3])
                    (init : World XCount.Fields) = Some w
                /\ XCount.get_total_x_movement w = 13).
Proof.
  split; [|split].
  - apply xcount_session.
  - intros t0 ds. destruct (xcount_session t0 (map (fun d => horizontal (fst d) (snd d)) ds))
      as (w & Hw & Ht).
    exists w; split; [done|]. by rewrite Ht, sum_x_horizontal.
  - intros t0 t1 t2 t3.
    destruct (xcount_session t0 [horizontal 5 t1; horizontal (-2) t2; horizontal 10 t3])
      as (w & Hw & Ht).
    exists w; split; [done|]. rewrite Ht. reflexivity.
Qed.

(** ** The recorded path *)

Lemma tester_fold_walk ms (f : Tester.Fields) :
  foldl (fun f e => Tester.event_body e f) f (map raw ms)
  = {| Tester.path_data := Tester.path_data f ++ walk (Tester._current_x f) (Tester._current_y f) ms;
       Tester._current_x := Tester._current_x f + sum_x (map raw ms);
       Tester._current_y := Tester._current_y f - sum_y (map raw ms) |}.
Proof.
  revert f; induction ms as [|[[|] d t] ms IH]; intros [p x y]; simpl.
  - unfold sum_x, sum_y; simpl. rewrite app_nil_r. f_equal; lia.
  - rewrite IH; simpl. unfold sum_x, sum_y, dx, dy; simpl.
    rewrite <- app_assoc, ?Z.add_0_r; simpl. f_equal; lia.
  - rewrite IH; simpl. unfold sum_x, sum_y, dx, dy; simpl.
    rewrite <- app_assoc, ?Z.add_0_r; simpl. f_equal; lia.
Qed.

Lemma walk_length x y ms : length (walk x y ms) = length ms.
Proof. revert x y; induction ms as [|m ms IH]; intros; simpl; [done|]. by rewrite IH. Qed.

Lemma walk_chain ms : forall (t : Time) x y k m (pt : Tester.PathPoint),
  ms !! k = Some m ->
  ((t, x, y) :: walk x y ms) !! k = Some pt ->
  ((t, x, y) :: walk x y ms) !! S k
  = Some (instant m, fst (Tester.point_xy pt) + dx m, snd (Tester.point_xy pt) + dy m).
Proof.
  induction ms as [|m0 ms IH]; intros t x y k m pt Hm Hpt; [done|].
  destruct k as [|k]; simpl in *.
  - by inversion Hm; inversion Hpt; subst.
  - by apply (IH (instant m0)).
Qed.

Lemma walk_sum_dx ms : sum_x (map raw ms) = sum_list (map dx ms).
Proof.
  induction ms as [|[[|] d t] ms IH]; [done|..]; unfold sum_x in *; simpl in *.
  - unfold dx at 1; simpl. by rewrite IH.
  - unfold dx at 1; simpl. by rewrite IH.
Qed.

Lemma walk_sum_dy ms : - sum_y (map raw ms) = sum_list (map dy ms).
Proof.
  induction ms as [|[[|] d t] ms IH]; [done|..]; unfold sum_y in *; simpl in *.
  - unfold dy at 1; simpl. by rewrite <- IH.
  - unfold dy at 1; simpl. rewrite <- IH. lia.
Qed.

Lemma walk_last ms : forall (t : Time) x y,
  Tester.point_xy <$> last ((t, x, y) :: walk x y ms)
  = Some (x + sum_list (map dx ms), y + sum_list (map dy ms)).
Proof.
  induction ms as [|m ms IH]; intros t x y.
  - simpl. unfold Tester.point_xy; simpl. do 2 f_equal; lia.
  - change (walk x y (m :: ms))
      with ((instant m, x + dx m, y + dy m) :: walk (x + dx m) (y + dy m) ms).
    rewrite last_cons_cons, IH. simpl. do 2 f_equal; lia.
Qed.

Lemma tester_session t0 ms :
  run (session 0 t0 (map raw ms)) (init : World Tester.Fields)
  = Some (events_done 0 (map raw ms)
            (_event_loop_grab 0 (GrabOk t0) (snd (start_tracking (init : World Tester.Fields)))))
  /\ Tester.get_path
       (events_done 0 (map raw ms)
          (_event_loop_grab 0 (GrabOk t0) (snd (start_tracking (init : World Tester.Fields)))))
     = (t0, 0, 0) :: walk 0 0 ms.
Proof.
  split.
  - unfold session. simpl. unfold _event_loop_grab; simpl. apply run_deliver; done.
  - unfold Tester.get_path, events_done; simpl. by rewrite tester_fold_walk.
Qed.

(** C2.  A new path tracker is started, its loop grabs the device at time
    [t0] and processes the motion events [ms] (any mix of the two axes).  The
    recorded path then starts with [(t0, 0, 0)], has one more point per event,
    every later point is its predecessor moved by the event's delta on the
    event's axis (a vertical delta with its sign inverted) and stamped with
    the event's time, and the last point is at (sum of the horizontal deltas,
    minus the sum of the vertical deltas).  The events (Horizontal, +3),
    (Vertical, +4) give the path (t0,0,0), (t1,3,0), (t2,3,-4). *)
Theorem C2_path_is_cumulative_sum :
  (forall t0 ms,
      exists w, run (session 0 t0 (map raw ms)) (init : World Tester.Fields) = Some w
        /\ Tester.get_path w !! 0%nat = Some (t0, 0, 0)
        /\ length (Tester.get_path w) = S (length ms)
        /\ (forall k m pt,
              ms !! k = Some m ->
              Tester.get_path w !! k = Some pt ->
              Tester.get_path w !! S k
              = Some (instant m, fst (Tester.point_xy pt) + dx m,
                      snd (Tester.point_xy pt) + dy m))
        /\ Tester.point_xy <$> last (Tester.get_path w)
           = Some (sum_x (map raw ms), - sum_y (map raw ms)))
  /\ (forall t0 t1 t2,
      exists w, run (session 0 t0 [horizontal 3 t1; vertical 4 t2])
                    (init : World Tester.Fields) = Some w
        /\ Tester.get_path w = [(t0, 0, 0); (t1, 3, 0); (t2, 3, -4)]).
Proof.
  split.
  - intros t0 ms. destruct (tester_session t0 ms) as [Hrun Hpath].
    eexists; split; [exact Hrun|]. rewrite Hpath.
    split; [done|]. split; [by simpl; rewrite walk_length|].
    split; [apply walk_chain|].
    rewrite walk_last, walk_sum_dx, walk_sum_dy. done.
  - intros t0 t1 t2.
    destruct (tester_session t0 [{| axis := Horizontal; delta := 3; instant := t1 |};
                                 {| axis := Vertical; delta := 4; instant := t2 |}])
      as [Hrun Hpath].
    eexists; split; [exact Hrun|]. rewrite Hpath. reflexivity.
Qed.

(** ** Invariants of the interleaving semantics *)

Section Invariants.
Context {A : Type} `{V : Variant A}.
Implicit Types (w : World A) (sched : list Action) (acts : list ThAction).

Variable I : World A -> Prop.
Hypothesis I_start : forall w, I w -> I (snd (start_tracking w)).
Hypothesis I_thread : forall a w w', I w -> thread_step a w = Some w' -> I w'.
Hypothesis I_flag : forall b w, I w -> I (set_is_running b w).
Hypothesis I_handle : forall o w, I w -> I (set_tracking_thread o w).
Hypothesis I_print : forall o w, I w -> I (print o w).

Lemma run_threads_preserves acts : forall w w',
  I w -> run_threads acts w = Some w' -> I w'.
Proof.
  induction acts as [|a acts IH]; intros w w' Hw Hrun; simpl in Hrun.
  - by inversion Hrun; subst.
  - destruct (thread_step a w) as [w1|] eqn:Hstep; [|done].
    simpl in Hrun. eapply IH; [|exact Hrun]. eapply I_thread; eauto.
Qed.

Lemma stop_tracking_preserves during w c w' :
  I w -> stop_tracking during w = Some (c, w') -> I w'.
Proof.
  intros Hw. unfold stop_tracking.
  destruct (_tracking_thread (self w)) as [tid|]; [|by inversion 1; subst].
  destruct (_is_running (self w)); [|by inversion 1; subst].
  destruct (run_threads during (set_is_running false w)) as [w1|] eqn:Hrun; [|done].
  simpl. inversion 1; subst.
  apply I_print, I_handle. eapply run_threads_preserves; [|exact Hrun]. by apply I_flag.
Qed.

Lemma step_preserves a w w' : I w -> step a w = Some w' -> I w'.
Proof.
  intros Hw. destruct a as [|during|a]; simpl.
  - inversion 1; subst. by apply I_start.
  - destruct (stop_tracking during w) as [[c w1]|] eqn:Hstop; [|done].
    simpl. inversion 1; subst. eapply stop_tracking_preserves; eauto.
  - by apply I_thread.
Qed.

Lemma run_preserves sched : forall w w', I w -> run sched w = Some w' -> I w'.
Proof.
  induction sched as [|a sched IH]; intros w w' Hw Hrun; simpl in Hrun.
  - by inversion Hrun; subst.
  - destruct (step a w) as [w1|] eqn:Hstep; [|done].
    simpl in Hrun. eapply IH; [|exact Hrun]. eapply step_preserves; eauto.
Qed.

Lemma reachable_invariant w : I init -> reachable w -> I w.
Proof. intros H0 [sched Hrun]. eapply run_preserves; eauto. Qed.

End Invariants.

(** ** Grab and ungrab *)

Lemma calls_snoc tid op log c :
  calls tid op (log ++ [c])
  = (calls tid op log + if bool_decide (c = (tid, op)) then 1 else 0)%nat.
Proof.
  unfold calls. rewrite List.filter_app, length_app. simpl.
  by destruct (bool_decide (c = (tid, op))).
Qed.

Lemma last_call_snoc tid log tid0 op :
  last_call tid (log ++ [(tid0, op)])
  = if decide (tid0 = tid) then Some op else last_call tid log.
Proof.
  unfold last_call. rewrite List.filter_app. simpl.
  destruct (decide (tid0 = tid)) as [->|Hne].
  - rewrite bool_decide_eq_true_2 by done. by rewrite last_snoc.
  - rewrite bool_decide_eq_false_2 by done. by rewrite app_nil_r.
Qed.

Section Discipline.
Context {A : Type} `{V : Variant A}.
Implicit Types (w : World A).

(** A call [op] on the device by thread [tid0], which moves it from [pc0] to
    [pc1], keeps the discipline when [ungrab] is the call that terminates the
    thread and releases the device, and any other call leaves the thread alive
    and either leaves the grab as it is or makes the caller its holder. *)
Lemma discipline_device_step w w' tid0 pc0 pc1 op :
  ungrab_discipline w ->
  threads w !! tid0 = Some pc0 ->
  pc0 <> Done ->
  threads w' = <[tid0:=pc1]> (threads w) ->
  dev_log w' = dev_log w ++ [(tid0, op)] ->
  (op = Ungrab /\ pc1 = Done /\ grabbed w' = false)
  \/ (op <> Ungrab /\ pc1 <> Done
      /\ ((grabbed w' = grabbed w /\ (holding pc0 = true -> holding pc1 = true))
          \/ holding pc1 = true)) ->
  ungrab_discipline w'.
Proof.
  intros [Hcalls Hgrab] Hpc0 Hlive Hths Hlog Hcase.
  assert (Hlt : (tid0 < length (threads w))%nat) by (by eapply lookup_lt_Some).
  split.
  - intros tid. rewrite Hths, Hlog, calls_snoc, last_call_snoc.
    specialize (Hcalls tid).
    destruct (decide (tid0 = tid)) as [->|Hne].
    + rewrite list_lookup_insert_eq by done. rewrite Hpc0 in Hcalls.
      assert (Hzero : calls tid Ungrab (dev_log w) = 0%nat) by (by destruct pc0).
      rewrite Hzero.
      destruct Hcase as [(-> & -> & _)|(Hop & Hpc1 & _)].
      * by rewrite bool_decide_eq_true_2.
      * rewrite bool_decide_eq_false_2 by congruence. by destruct pc1.
    + rewrite list_lookup_insert_ne by done.
      rewrite bool_decide_eq_false_2 by congruence.
      rewrite Nat.add_0_r. exact Hcalls.
  - intros Hg. rewrite Hths.
    destruct Hcase as [(_ & _ & Hfalse)|(_ & _ & [[Hsame Hhold]|Hhold])].
    + congruence.
    + rewrite Hsame in Hg. destruct (Hgrab Hg) as (tid & pc & Htid & Hpc).
      destruct (decide (tid0 = tid)) as [->|Hne].
      * exists tid, pc1. rewrite list_lookup_insert_eq by done.
        split; [done|]. apply Hhold. congruence.
      * exists tid, pc. by rewrite list_lookup_insert_ne.
    + exists tid0, pc1. by rewrite list_lookup_insert_eq.
Qed.

(** The obligations of [discipline_device_step] that follow by computing
    the step. *)
Ltac device_step w tid pc0 pc1 op :=
  eapply (discipline_device_step w _ tid pc0 pc1 op);
  [ eassumption | eassumption | done
  | unfold _event_loop_grab, _event_loop_read, _event_loop_finally, _event_loop_except; simpl;
    repeat case_match; simpl in *; try done; try congruence;
    by rewrite list_insert_id
  | unfold _event_loop_grab, _event_loop_read, _event_loop_finally, _event_loop_except; simpl;
    repeat case_match; simpl in *; try done; congruence
  | ].

Lemma discipline_thread_step a w w' :
  ungrab_discipline w -> thread_step a w = Some w' -> ungrab_discipline w'.
Proof.
  intros Hw. destruct a as [tid r|tid r|tid r]; simpl; case_decide as Hpc; try done;
    inversion 1; subst w'; clear H.
  - destruct r as [t0|e].
    + device_step w tid AtGrab InLoop Grab.
      right. repeat split; try done. by right.
    + device_step w tid AtGrab AtFinally Grab.
      right. repeat split; try done. by right.
  - destruct r as [ev| |e].
    + unfold _event_loop_read; simpl. destruct (_is_running (self w)); simpl.
      * device_step w tid InLoop InLoop Read.
        right. repeat split; try done. by left.
      * device_step w tid InLoop AtFinally Read.
        right. repeat split; try done. by left.
    + device_step w tid InLoop AtFinally Read.
      right. repeat split; try done. by left.
    + device_step w tid InLoop AtFinally Read.
      right. repeat split; try done. left. split; [|done].
      unfold _event_loop_read, _event_loop_except. by destruct (is_Exception e).
  - device_step w tid AtFinally Done Ungrab.
    left. repeat split; try done. unfold _event_loop_finally. by destruct r.
Qed.

Lemma discipline_start w :
  ungrab_discipline w -> ungrab_discipline (snd (start_tracking w)).
Proof.
  intros [Hcalls Hgrab].
  destruct (_tracking_thread (self w)) as [tid0|] eqn:Hth.
  { by rewrite (start_tracking_busy w tid0). }
  rewrite start_tracking_idle by done. unfold ungrab_discipline; simpl.
  split.
  - intros tid. specialize (Hcalls tid).
    destruct (decide (tid < length (threads w))%nat) as [Hlt|Hge].
    + by rewrite lookup_app_l.
    + rewrite lookup_ge_None_2 in Hcalls by lia.
      destruct ((threads w ++ [AtGrab]) !! tid) as [pc|] eqn:Hpc; [|done].
      rewrite lookup_app_r in Hpc by lia.
      destruct (tid - length (threads w))%nat; [|done].
      by inversion Hpc; subst.
  - intros Hg. destruct (Hgrab Hg) as (tid & pc & Htid & Hpc).
    exists tid, pc. split; [|done]. by apply lookup_app_l_Some.
Qed.

Lemma discipline_reachable w : reachable w -> ungrab_discipline w.
Proof.
  apply (reachable_invariant ungrab_discipline).
  - apply discipline_start.
  - apply discipline_thread_step.
  - done.
  - done.
  - done.
  - split; [done|]. done.
Qed.

End Discipline.

Section Exits.
Context {A : Type} `{V : Variant A}.
Implicit Types (w : World A).

(** The [finally] block can always run, and it ends the thread with the device
    released. *)
Lemma finally_runs w tid r :
  threads w !! tid = Some AtFinally ->
  exists w', thread_step (DoUngrab tid r) w = Some w'
             /\ threads w' !! tid = Some Done /\ grabbed w' = false.
Proof.
  intros Hpc. eexists. simpl. rewrite decide_True by done. split; [done|].
  unfold _event_loop_finally. destruct r; simpl.
  - split; [|done]. apply list_lookup_insert_eq. by eapply lookup_lt_Some.
  - split; [|done]. apply list_lookup_insert_eq. by eapply lookup_lt_Some.
Qed.

(** A thread terminates only by running its [finally] block. *)
Lemma only_finally_terminates a w w' pc :
  threads w !! thread_of a = Some pc ->
  thread_step a w = Some w' ->
  threads w' !! thread_of a = Some Done ->
  pc = AtFinally.
Proof.
  intros Hpc Hstep Hdone.
  assert (Hlt : (thread_of a < length (threads w))%nat) by (by eapply lookup_lt_Some).
  destruct a as [tid r|tid r|tid r]; simpl in *; case_decide as Hat; try done.
  - exfalso. inversion Hstep; subst w'; clear Hstep.
    destruct r as [t0|e]; unfold _event_loop_grab, _event_loop_except in Hdone; simpl in Hdone.
    + by rewrite list_lookup_insert_eq in Hdone.
    + destruct (is_Exception e); simpl in Hdone;
        by rewrite list_lookup_insert_eq in Hdone.
  - exfalso. inversion Hstep; subst w'; clear Hstep.
    destruct r as [ev| |e]; unfold _event_loop_read, _event_loop_except in Hdone; simpl in Hdone.
    + destruct (_is_running (self w)); simpl in Hdone.
      * congruence.
      * by rewrite list_lookup_insert_eq in Hdone.
    + by rewrite list_lookup_insert_eq in Hdone.
    + destruct (is_Exception e); simpl in Hdone;
        by rewrite list_lookup_insert_eq in Hdone.
  - congruence.
Qed.

(** At the end of the interpreter every thread that exists has ended. *)
Lemma lookup_interpreter_exit w tid pc :
  threads w !! tid = Some pc -> threads (interpreter_exit w) !! tid = Some Done.
Proof.
  simpl. generalize (threads w). intros ths. revert tid.
  induction ths as [|pc0 ths IH]; intros [|tid]; simpl; try done. apply IH.
Qed.

(** A step of a loop thread extends a run. *)
Lemma reachable_thread_step sched a w w' :
  run sched init = Some w -> thread_step a w = Some w' -> reachable w'.
Proof.
  intros Hrun Hstep. exists (sched ++ [Th a]). rewrite run_app, Hrun.
  change (thread_step a w ≫= (fun w1 => Some w1) = Some w'). by rewrite Hstep.
Qed.

(** A grab that raises takes the thread to its [finally] block. *)
Lemma failed_grab_reaches_finally w tid e :
  threads w !! tid = Some AtGrab ->
  exists w', thread_step (DoGrab tid (GrabRaises e)) w = Some w'
             /\ threads w' !! tid = Some AtFinally.
Proof.
  intros Hpc. eexists. simpl. rewrite decide_True by done. split; [done|].
  assert (Hlt : (tid < length (threads w))%nat) by (by eapply lookup_lt_Some).
  unfold _event_loop_grab, _event_loop_except.
  destruct (is_Exception e); simpl; by apply list_lookup_insert_eq.
Qed.

(** A turn of the loop takes the thread to its [finally] block when it leaves
    the loop, and nowhere else. *)
Lemma read_reaches_finally w tid r :
  threads w !! tid = Some InLoop ->
  exists w', thread_step (DoRead tid r) w = Some w'
             /\ threads w' !! tid
                = Some (if leaves_loop (_is_running (self w)) r then AtFinally else InLoop).
Proof.
  intros Hpc. eexists. simpl. rewrite decide_True by done. split; [done|].
  assert (Hlt : (tid < length (threads w))%nat) by (by eapply lookup_lt_Some).
  unfold _event_loop_read, _event_loop_except.
  destruct r as [ev| |e]; simpl.
  - destruct (_is_running (self w)); simpl; [done|by apply list_lookup_insert_eq].
  - by apply list_lookup_insert_eq.
  - destruct (is_Exception e); simpl; by apply list_lookup_insert_eq.
Qed.

End Exits.

(** C4, amended.  In every world the program reaches by the steps of its
    threads, in either variant: every way out of the loop leads to the
    [finally] block (a grab that raises; an event read while the flag is
    cleared, the end of the stream, a read that raises), and a turn of the
    loop that is none of these stays in the loop; the [finally] block can
    always run, calls [ungrab()], ends the thread and leaves the device
    released; a thread ends only so; hence a thread that has ended has called
    [ungrab()] exactly once, as its last call on the device, and a thread
    that has not ended has not called it; and the device is grabbed only
    while some loop thread is between its grab and the end of its [finally]
    block.  A loop thread that has not ended when the interpreter ends is a
    daemon thread and ends with it, without a call of [ungrab()]. *)
Theorem C4_ungrab_exactly_once_on_every_exit
  {A : Type} `{V : Variant A} (sched : list Action) (w : World A) (tid : nat) (pc : Pc) :
  run sched init = Some w ->
  threads w !! tid = Some pc ->
  calls tid Ungrab (dev_log w) = (if bool_decide (pc = Done) then 1 else 0)%nat
  /\ (pc = Done -> last_call tid (dev_log w) = Some Ungrab)
  /\ (pc = AtGrab -> forall e,
        exists w', thread_step (DoGrab tid (GrabRaises e)) w = Some w'
                   /\ threads w' !! tid = Some AtFinally)
  /\ (pc = InLoop -> forall r,
        exists w', thread_step (DoRead tid r) w = Some w'
                   /\ threads w' !! tid
                      = Some (if leaves_loop (_is_running (self w)) r
                              then AtFinally else InLoop))
  /\ (pc = AtFinally -> forall r,
        exists w', thread_step (DoUngrab tid r) w = Some w'
                   /\ threads w' !! tid = Some Done
                   /\ calls tid Ungrab (dev_log w') = 1%nat
                   /\ last_call tid (dev_log w') = Some Ungrab
                   /\ grabbed w' = false)
  /\ (forall a w', thread_of a = tid -> thread_step a w = Some w' ->
                   threads w' !! tid = Some Done -> pc = AtFinally)
  /\ (grabbed w = true ->
        exists tid' pc', threads w !! tid' = Some pc' /\ holding pc' = true)
  /\ (pc <> Done ->
        threads (interpreter_exit w) !! tid = Some Done
        /\ calls tid Ungrab (dev_log (interpreter_exit w)) = 0%nat).
Proof.
  intros Hrun Hpc.
  destruct (discipline_reachable w (ex_intro _ sched Hrun)) as [Hcalls Hgrab].
  specialize (Hcalls tid). rewrite Hpc in Hcalls.
  assert (Hexit : pc <> Done ->
                  threads (interpreter_exit w) !! tid = Some Done
                  /\ calls tid Ungrab (dev_log (interpreter_exit w)) = 0%nat).
  { intros Hlive. split; [by eapply lookup_interpreter_exit|].
    simpl. by destruct pc. }
  split; [destruct pc; simpl; tauto|].
  split; [intros ->; tauto|].
  split; [intros -> e; by apply failed_grab_reaches_finally|].
  split; [intros -> r; by apply read_reaches_finally|].
  split.
  { intros -> r. destruct (finally_runs w tid r Hpc) as (w' & Hstep & Hdone & Hfree).
    exists w'. split; [done|]. split; [done|].
    pose proof (reachable_thread_step sched _ w w' Hrun Hstep) as Hreach.
    destruct (discipline_reachable w' Hreach) as [Hcalls' _].
    specialize (Hcalls' tid). rewrite Hdone in Hcalls'. tauto. }
  split; [intros a w' <- Hstep Hdone; by eapply only_finally_terminates|].
  split; [exact Hgrab | exact Hexit].
Qed.

(** The loop of [tracking_world] is in its read: a read that raises takes it
    to its [finally] block, which then ends it after one [ungrab()]. *)
Lemma C4_ungrab_exactly_once_witness :
  run [CallStart; Th (DoGrab 0 (GrabOk 0%Q))] init = Some tracking_world
  /\ threads tracking_world !! 0%nat = Some InLoop
  /\ calls 0 Ungrab (dev_log tracking_world) = 0%nat
  /\ exists w', thread_step (DoRead 0 (ReadRaises no_such_device)) tracking_world = Some w'
                /\ threads w' !! 0%nat = Some AtFinally.
Proof.
  assert (Hrun : run [CallStart; Th (DoGrab 0 (GrabOk 0%Q))] init = Some tracking_world)
    by reflexivity.
  assert (Hpc : threads tracking_world !! 0%nat = Some InLoop) by reflexivity.
  destruct (C4_ungrab_exactly_once_on_every_exit
              [CallStart; Th (DoGrab 0 (GrabOk 0%Q))] tracking_world 0 InLoop Hrun Hpc)
    as (Hcount & _ & _ & Hread & _).
  split; [exact Hrun|]. split; [exact Hpc|]. split; [exact Hcount|].
  exact (Hread eq_refl (ReadRaises no_such_device)).
Defined.

(** ** The lifecycle methods *)

Section Lifecycle.
Context {A : Type} `{V : Variant A}.
Implicit Types (w : World A) (acts : list ThAction).

(** The loop threads never assign the lifecycle fields and never change the
    number of threads. *)
Lemma thread_step_lifecycle a w w' :
  thread_step a w = Some w' ->
  _tracking_thread (self w') = _tracking_thread (self w)
  /\ _is_running (self w') = _is_running (self w)
  /\ length (threads w') = length (threads w).
Proof.
  destruct a as [tid r|tid r|tid r]; simpl; case_decide; try done;
    inversion 1; subst w'.
  - destruct r as [t0|e]; unfold _event_loop_grab, _event_loop_except; simpl.
    + by rewrite length_insert.
    + destruct (is_Exception e); simpl; by rewrite length_insert.
  - destruct r as [ev| |e]; unfold _event_loop_read, _event_loop_except; simpl.
    + destruct (_is_running (self w)) eqn:Hflag; simpl; rewrite ?length_insert; done.
    + by rewrite length_insert.
    + destruct (is_Exception e); simpl; by rewrite length_insert.
  - unfold _event_loop_finally. destruct r; simpl; by rewrite length_insert.
Qed.

Lemma run_threads_lifecycle acts : forall w w',
  run_threads acts w = Some w' ->
  _tracking_thread (self w') = _tracking_thread (self w)
  /\ _is_running (self w') = _is_running (self w)
  /\ length (threads w') = length (threads w).
Proof.
  induction acts as [|a acts IH]; intros w w' Hrun; simpl in Hrun.
  - by inversion Hrun; subst.
  - destruct (thread_step a w) as [w1|] eqn:Hstep; [|done]. simpl in Hrun.
    destruct (thread_step_lifecycle _ _ _ Hstep) as (E1 & E2 & E3).
    destruct (IH _ _ Hrun) as (E1' & E2' & E3'). repeat split; congruence.
Qed.

Lemma stop_tracking_tracking during w w1 tid :
  _tracking_thread (self w) = Some tid ->
  _is_running (self w) = true ->
  run_threads during (set_is_running false w) = Some w1 ->
  stop_tracking during w
  = Some (Returns (), print (Stdout "Tracking stopped.") (set_tracking_thread None w1)).
Proof.
  intros Hth Hflag Hrun. unfold stop_tracking. by rewrite Hth, Hflag, Hrun.
Qed.

End Lifecycle.

(** C9.  In either variant, [stop_tracking()] on a tracker that records no
    tracking thread returns normally and changes nothing: not the tracker,
    not the accumulated result, not the threads, the device or the console. *)
Theorem C9_stop_when_idle_is_a_noop
  {A : Type} `{V : Variant A} (during : list ThAction) (w : World A) :
  _tracking_thread (self w) = None ->
  stop_tracking during w = Some (Returns (), w).
Proof. intros H. unfold stop_tracking. by rewrite H. Qed.

(** A new tracker of either variant is idle, and stopping it changes nothing. *)
Lemma C9_stop_when_idle_witness :
  _tracking_thread (self (init : World XCount.Fields)) = None
  /\ stop_tracking [] (init : World XCount.Fields) = Some (Returns (), init)
  /\ _tracking_thread (self (init : World Tester.Fields)) = None
  /\ stop_tracking [] (init : World Tester.Fields) = Some (Returns (), init).
Proof.
  split; [reflexivity|]. split.
  { apply (C9_stop_when_idle_is_a_noop [] (init : World XCount.Fields)). reflexivity. }
  split; [reflexivity|].
  apply (C9_stop_when_idle_is_a_noop [] (init : World Tester.Fields)). reflexivity.
Defined.

(** C8, refuted as stated.  After a [stop_tracking()] whose join timed out the
    first loop is still blocked in its read, yet [start_tracking()] returns
    normally and spawns a second loop beside it; and on a tracker that
    records a thread [start_tracking()] returns normally too: the caller is
    given no error. *)
Lemma C8_counterexample :
  run [CallStart; Th (DoGrab 0 (GrabOk 0%Q)); CallStop []] init = Some timed_out_world
  /\ threads timed_out_world = [InLoop]
  /\ fst (start_tracking timed_out_world) = Returns ()
  /\ threads (snd (start_tracking timed_out_world)) = [InLoop; AtGrab]
  /\ run [CallStart] init = Some started_world
  /\ _tracking_thread (self started_world) = Some 0%nat
  /\ fst (start_tracking started_world) = Returns ().
Proof. repeat split. Qed.

(** C8, amended.  In either variant, [start_tracking()] always returns
    normally.  When the tracker records a tracking thread it prints
    "Tracking is already in progress.", spawns nothing and leaves the tracker
    and the threads as they are.  Otherwise it sets the flag, spawns one new
    loop thread and records it, leaving the accumulated result as it is. *)
Theorem C8_start_tracking_guards_on_the_recorded_thread
  {A : Type} `{V : Variant A} (w : World A) :
  fst (start_tracking w) = Returns ()
  /\ match _tracking_thread (self w) with
     | Some _ =>
       self (snd (start_tracking w)) = self w
       /\ threads (snd (start_tracking w)) = threads w
       /\ console (snd (start_tracking w))
          = console w ++ [Stdout "Tracking is already in progress."]
     | None =>
       _tracking_thread (self (snd (start_tracking w))) = Some (length (threads w))
       /\ _is_running (self (snd (start_tracking w))) = true
       /\ fields (self (snd (start_tracking w))) = fields (self w)
       /\ threads (snd (start_tracking w)) = threads w ++ [AtGrab]
       /\ console (snd (start_tracking w)) = console w
     end
  /\ grabbed (snd (start_tracking w)) = grabbed w
  /\ dev_log (snd (start_tracking w)) = dev_log w.
Proof.
  destruct (_tracking_thread (self w)) as [tid|] eqn:Hth.
  - rewrite (start_tracking_busy w tid Hth). by repeat split.
  - rewrite (start_tracking_idle w Hth). by repeat split.
Qed.

(** C5, refuted as stated.  The tracker is tracking and the loop is blocked in
    a read.  [stop_tracking()] with a join that times out (no step of the
    loop while it waits) returns normally and prints "Tracking stopped.",
    although the loop has not terminated and the device is still grabbed. *)
Lemma C5_counterexample :
  run [CallStart; Th (DoGrab 0 (GrabOk 0%Q))] init = Some tracking_world
  /\ stop_tracking [] tracking_world = Some (Returns (), timed_out_world)
  /\ threads timed_out_world !! 0%nat = Some InLoop
  /\ grabbed timed_out_world = true
  /\ _tracking_thread (self timed_out_world) = None
  /\ console timed_out_world
     = [Stdout "Mouse device grabbed exclusively."; Stdout "Tracking stopped."].
Proof. repeat split. Qed.

(** C5, amended.  In either variant, [stop_tracking()] on a tracker that
    records a thread and has its flag set clears the flag first, so that the
    loop leaves at its next event; whatever the loop threads do while the
    join waits, and whether or not the joined thread has terminated by then,
    it then forgets the thread, prints "Tracking stopped." and returns
    normally.  A loop thread that reads an event after the flag is cleared
    goes to its [finally] block. *)
Theorem C5_stop_tracking_returns_normally_after_the_join
  {A : Type} `{V : Variant A} (during : list ThAction) (w w1 : World A) (tid : nat) :
  _tracking_thread (self w) = Some tid ->
  _is_running (self w) = true ->
  run_threads during (set_is_running false w) = Some w1 ->
  exists w',
    stop_tracking during w = Some (Returns (), w')
    /\ _tracking_thread (self w') = None
    /\ _is_running (self w') = false
    /\ fields (self w') = fields (self w1)
    /\ threads w' = threads w1
    /\ grabbed w' = grabbed w1
    /\ console w' = console w1 ++ [Stdout "Tracking stopped."]
    /\ (forall tid' ev, threads w' !! tid' = Some InLoop ->
          exists w'', thread_step (DoRead tid' (Yield ev)) w' = Some w''
                      /\ threads w'' !! tid' = Some AtFinally
                      /\ fields (self w'') = fields (self w')).
Proof.
  intros Hth Hflag Hrun. eexists. split; [by eapply stop_tracking_tracking|].
  destruct (run_threads_lifecycle _ _ _ Hrun) as (_ & Hflag1 & _).
  simpl in *. repeat split; try done.
  intros tid' ev Hpc. eexists. rewrite decide_True by done. split; [done|].
  unfold _event_loop_read; simpl. rewrite Hflag1; simpl. split; [|done].
  apply list_lookup_insert_eq. by eapply lookup_lt_Some.
Qed.

(** The join times out on [tracking_world]: the call returns normally, the
    loop thread is still in its loop. *)
Lemma C5_stop_tracking_witness :
  _tracking_thread (self tracking_world) = Some 0%nat
  /\ _is_running (self tracking_world) = true
  /\ run_threads [] (set_is_running false tracking_world)
     = Some (set_is_running false tracking_world)
  /\ exists w', stop_tracking [] tracking_world = Some (Returns (), w')
                /\ _tracking_thread (self w') = None
                /\ threads w' = [InLoop]
                /\ console w' = [Stdout "Mouse device grabbed exclusively.";
                                 Stdout "Tracking stopped."].
Proof.
  split; [reflexivity|]. split; [reflexivity|]. split; [reflexivity|].
  destruct (C5_stop_tracking_returns_normally_after_the_join
              [] tracking_world (set_is_running false tracking_world) 0
              eq_refl eq_refl eq_refl)
    as (w' & Hstop & Hth & _ & _ & Hths & _ & Hcon & _).
  exists w'. split; [exact Hstop|]. split; [exact Hth|].
  split; [exact Hths | exact Hcon].
Defined.

(** ** Sessions on a used tracker *)

Section Sessions.
Context {A : Type} `{V : Variant A}.
Implicit Types (w : World A) (acts : list ThAction).

(** While the flag is cleared, no step other than a successful grab touches
    the accumulated fields. *)
Lemma thread_step_flag_cleared a w w' :
  no_grab a = true ->
  _is_running (self w) = false ->
  thread_step a w = Some w' ->
  fields (self w') = fields (self w).
Proof.
  intros Hng Hflag.
  destruct a as [tid r|tid r|tid r]; simpl in *; try done; case_decide; try done;
    inversion 1; subst w'.
  - destruct r as [ev| |e]; unfold _event_loop_read, _event_loop_except; simpl.
    + by rewrite Hflag.
    + done.
    + by destruct (is_Exception e).
  - unfold _event_loop_finally. by destruct r.
Qed.

Lemma run_threads_flag_cleared acts : forall w w',
  forallb no_grab acts = true ->
  _is_running (self w) = false ->
  run_threads acts w = Some w' ->
  fields (self w') = fields (self w).
Proof.
  induction acts as [|a acts IH]; intros w w' Hng Hflag Hrun; simpl in *.
  - by inversion Hrun; subst.
  - apply andb_true_iff in Hng as [Ha Hng].
    destruct (thread_step a w) as [w1|] eqn:Hstep; [|done]. simpl in Hrun.
    rewrite (IH w1 w' Hng) by
      (done || (destruct (thread_step_lifecycle _ _ _ Hstep) as (_ & -> & _); done)).
    by eapply thread_step_flag_cleared.
Qed.

(** [stop_tracking()] always returns normally, and spawns nothing. *)
Lemma stop_tracking_returns during w c w' :
  stop_tracking during w = Some (c, w') ->
  c = Returns () /\ length (threads w') = length (threads w).
Proof.
  unfold stop_tracking.
  destruct (_tracking_thread (self w)) as [tid|] eqn:Hth; [|by inversion 1; subst].
  destruct (_is_running (self w)) eqn:Hflag; [|by inversion 1; subst].
  destruct (run_threads during (set_is_running false w)) as [w1|] eqn:Hrun; [|done].
  simpl. inversion 1; subst.
  by destruct (run_threads_lifecycle _ _ _ Hrun) as (_ & _ & Hlen).
Qed.

(** A second session, step by step: the first stop leaves [w1]; when the
    events of the second session are processed and the flag is cleared again
    the world is [w4], whose fields are those of [w1] taken through the
    statements before the loop and through the events, in order; the loop
    threads then take it to [w5] while the last stop joins, and the fields at
    the end are those of [w5]. *)
Lemma run_restart w w' d1 t0 evs d2 :
  run (restart (length (threads w)) d1 t0 evs d2) w = Some w' ->
  exists w1 w4 w5,
    stop_tracking d1 w = Some (Returns (), w1)
    /\ fields (self w4)
       = foldl (fun f e => on_event e f) (before_loop t0 (fields (self w1))) evs
    /\ _is_running (self w4) = false
    /\ run_threads d2 w4 = Some w5
    /\ fields (self w') = fields (self w5).
Proof.
  unfold restart, session.
  change (run (CallStop d1 :: ?s) w) with (step (CallStop d1) w ≫= run s).
  simpl. destruct (stop_tracking d1 w) as [[c w1]|] eqn:Hstop; [|done]. simpl.
  destruct (stop_tracking_returns _ _ _ _ Hstop) as (-> & Hlen).
  intros Hrun.
  destruct (_tracking_thread (self w1)) as [tid1|] eqn:Hth.
  { exfalso. rewrite (start_tracking_busy w1 tid1 Hth) in Hrun. simpl in Hrun.
    rewrite decide_False in Hrun; [done|].
    rewrite lookup_ge_None_2; [done|]. simpl. lia. }
  rewrite (start_tracking_idle w1 Hth) in Hrun. simpl in Hrun.
  rewrite decide_True in Hrun by (rewrite <- Hlen; by rewrite lookup_app_r, Nat.sub_diag).
  simpl in Hrun. rewrite run_app in Hrun.
  rewrite run_deliver in Hrun.
  2: { unfold _event_loop_grab; simpl. apply list_lookup_insert_eq.
       rewrite length_app; simpl. lia. }
  2: { done. }
  simpl in Hrun.
  destruct (stop_tracking d2 _) as [[c2 w2]|] eqn:Hstop2; [|done].
  simpl in Hrun. inversion Hrun; subst w2; clear Hrun.
  unfold stop_tracking in Hstop2; simpl in Hstop2.
  destruct (run_threads d2 _) as [w3|] eqn:Hrun2; [|done].
  simpl in Hstop2. inversion Hstop2; subst; clear Hstop2.
  refine (ex_intro _ w1 (ex_intro _ _ (ex_intro _ w3
            (conj eq_refl (conj _ (conj _ (conj Hrun2 _))))))); done.
Qed.

End Sessions.

(** What the loop body of the path variant does to the fields over any list
    of events: one point per relative event, stamped with the event's time,
    and the position moved by the horizontal and the negated vertical
    values. *)
Lemma tester_fold evs : forall f : Tester.Fields,
  exists q,
    Tester.path_data (foldl (fun f e => Tester.event_body e f) f evs)
    = Tester.path_data f ++ q
    /\ map Tester.point_time q = map timestamp (List.filter is_rel evs)
    /\ Tester._current_x (foldl (fun f e => Tester.event_body e f) f evs)
       = Tester._current_x f + sum_x evs
    /\ Tester._current_y (foldl (fun f e => Tester.event_body e f) f evs)
       = Tester._current_y f - sum_y evs.
Proof.
  induction evs as [|e evs IH]; intros f.
  - exists []. simpl. rewrite app_nil_r. unfold sum_x, sum_y; simpl.
    split; [done|]. split; [done|]. split; lia.
  - simpl. destruct (IH (Tester.event_body e f)) as (q & Hp & Ht & Hx & Hy).
    rewrite Hp, Hx, Hy. clear Hp Hx Hy IH.
    unfold Tester.event_body, sum_x, sum_y, is_rel_x, is_rel_y, is_rel.
    simpl. destruct (Z.eqb_spec (type e) ecodes.EV_REL) as [Hty|Hty]; simpl.
    + destruct (Z.eqb_spec (code e) ecodes.REL_X) as [Hcx|Hcx];
        destruct (Z.eqb_spec (code e) ecodes.REL_Y) as [Hcy|Hcy]; simpl;
        try (exfalso; unfold ecodes.REL_X, ecodes.REL_Y in *; lia);
        (eexists (_ :: q); rewrite <- app_assoc; simpl;
         split; [reflexivity|]; split; [by rewrite Ht|]; split; lia).
    + exists q. split; [done|]. split; [done|]. split; lia.
Qed.

(** C3, refuted as stated.  The tracker of the example run [stop_by_flag] has
    counted +5 in its first session.  Stopping, starting again and processing
    the single event (Horizontal, +1) gives the total 6 and a path that still
    holds the two points of the first session and continues from x = 5; the
    same second session on a new tracker gives the total 1 and a path of two
    points that starts at (0, 0). *)
Lemma C3_counterexample :
  run stop_by_flag init = Some stopped_by_flag
  /\ XCount.get_total_x_movement
      <$> run (restart 1 [] 3%Q [horizontal 1 4%Q] []) stopped_by_flag = Some 6
  /\ XCount.get_total_x_movement
      <$> run (restart 0 [] 3%Q [horizontal 1 4%Q] []) init = Some 1
  /\ run stop_by_flag init = Some stopped_by_flag_path
  /\ Tester.get_path
      <$> run (restart 1 [] 3%Q [horizontal 1 4%Q] []) stopped_by_flag_path
      = Some [(0%Q, 0, 0); (1%Q, 5, 0); (3%Q, 5, 0); (4%Q, 6, 0)]
  /\ Tester.get_path
      <$> run (restart 0 [] 3%Q [horizontal 1 4%Q] []) init
      = Some [(3%Q, 0, 0); (4%Q, 1, 0)].
Proof. repeat split. Qed.

(** ** Timestamps of the path *)

(** C6, refuted as stated.  When the wall clock is stepped back between two
    events the recorded timestamps decrease; and a second session on the same
    tracker appends its start time, read from the monotonic clock, after the
    realtime stamps of the first session. *)
Lemma C6_counterexample :
  (exists w, run clock_stepped_back (init : World Tester.Fields) = Some w
             /\ map Tester.point_time (Tester.get_path w)
                = [100%Q; (3400000001 # 2)%Q; (6800000001 # 4)%Q]
             /\ ~ nondecreasing (map Tester.point_time (Tester.get_path w)))
  /\ (exists w, run two_sessions (init : World Tester.Fields) = Some w
              /\ map Tester.point_time (Tester.get_path w)
                 = [100%Q; 1700000000%Q; 105%Q]
              /\ ~ nondecreasing (map Tester.point_time (Tester.get_path w))).
Proof.
  split.
  - eexists. split; [vm_compute; reflexivity|]. split; [reflexivity|].
    vm_compute. intros (_ & Hle & _). apply Hle. reflexivity.
  - eexists. split; [vm_compute; reflexivity|]. split; [reflexivity|].
    vm_compute. intros (_ & Hle & _). apply Hle. reflexivity.
Qed.

(** C6, amended.  In one session on a new path tracker the timestamps of
    [path_data] are, in order, the start time of the loop followed by the
    timestamps carried by the relative events it processed; so they are
    non-decreasing exactly when that sequence of clock readings is. *)
Theorem C6_timestamps_are_the_clock_readings (t0 : Time) (evs : list InputEvent) :
  exists w, run (session 0 t0 evs) (init : World Tester.Fields) = Some w
    /\ map Tester.point_time (Tester.get_path w)
       = t0 :: map timestamp (List.filter is_rel evs)
    /\ (nondecreasing (map Tester.point_time (Tester.get_path w))
        <-> nondecreasing (t0 :: map timestamp (List.filter is_rel evs))).
Proof.
  exists (events_done 0 evs
            (_event_loop_grab 0 (GrabOk t0) (snd (start_tracking (init : World Tester.Fields))))).
  split.
  { unfold session. simpl. unfold _event_loop_grab; simpl. apply run_deliver; done. }
  assert (Hts : map Tester.point_time
                  (Tester.get_path
                     (events_done 0 evs
                        (_event_loop_grab 0 (GrabOk t0)
                           (snd (start_tracking (init : World Tester.Fields))))))
                = t0 :: map timestamp (List.filter is_rel evs)).
  { unfold Tester.get_path, events_done; simpl.
    destruct (tester_fold evs (Tester.record_start t0 init_fields))
      as (q & Hpath & Htimes & _).
    simpl in Hpath. rewrite Hpath. simpl. by rewrite Htimes. }
  split; [exact Hts|]. by rewrite Hts.
Qed.

(** ** Events on other axes *)

Lemma tracks_position_same (w w' : World Tester.Fields) :
  path_tracks_position w ->
  fields (self w') = fields (self w) ->
  (forall tid, threads w' !! tid = Some InLoop -> threads w !! tid = Some InLoop) ->
  path_tracks_position w'.
Proof.
  unfold path_tracks_position, Tester.get_path. intros Hw -> Hths.
  destruct (last (Tester.path_data (fields (self w)))); [done|].
  intros tid Htid. by eapply Hw, Hths.
Qed.

Lemma insert_not_in_loop (ths : list Pc) tid tid' pc :
  pc <> InLoop -> <[tid:=pc]> ths !! tid' = Some InLoop -> ths !! tid' = Some InLoop.
Proof.
  intros Hpc. destruct (decide (tid = tid')) as [->|Hne].
  - destruct (decide (tid' < length ths)%nat).
    + rewrite list_lookup_insert_eq by done. congruence.
    + by rewrite list_insert_ge by lia.
  - by rewrite list_lookup_insert_ne.
Qed.

Lemma tracks_position_appended (w : World Tester.Fields) p :
  last (Tester.get_path w) = Some p ->
  Tester.point_xy p
  = (Tester._current_x (fields (self w)), Tester._current_y (fields (self w))) ->
  path_tracks_position w.
Proof. unfold path_tracks_position. by intros ->. Qed.

Lemma tracks_position_thread_step a (w w' : World Tester.Fields) :
  path_tracks_position w -> thread_step a w = Some w' -> path_tracks_position w'.
Proof.
  intros Hw. destruct a as [tid r|tid r|tid r]; simpl; case_decide as Hpc; try done;
    inversion 1; subst w'; clear H.
  - destruct r as [t0|e].
    + eapply tracks_position_appended.
      * unfold Tester.get_path, _event_loop_grab; simpl. apply last_snoc.
      * done.
    + apply (tracks_position_same w); [done|..].
      * unfold _event_loop_grab, _event_loop_except. by destruct (is_Exception e).
      * intros tid'. unfold _event_loop_grab, _event_loop_except.
        destruct (is_Exception e); simpl; by apply insert_not_in_loop.
  - destruct r as [ev| |e]; unfold _event_loop_read; simpl.
    + destruct (_is_running (self w)); simpl.
      * unfold Tester.event_body.
        destruct (type ev =? ecodes.EV_REL).
        -- eapply tracks_position_appended.
           ++ unfold Tester.get_path; simpl. apply last_snoc.
           ++ done.
        -- by apply (tracks_position_same w).
      * apply (tracks_position_same w); [done|done|].
        intros tid'; simpl. by apply insert_not_in_loop.
    + apply (tracks_position_same w); [done|done|].
      intros tid'; simpl. by apply insert_not_in_loop.
    + apply (tracks_position_same w); [done|..].
      * unfold _event_loop_except. by destruct (is_Exception e).
      * intros tid'. unfold _event_loop_except.
        destruct (is_Exception e); simpl; by apply insert_not_in_loop.
  - apply (tracks_position_same w); [done|..].
    + unfold _event_loop_finally. by destruct r.
    + intros tid'. unfold _event_loop_finally.
      destruct r; simpl; by apply insert_not_in_loop.
Qed.

Lemma tracks_position_reachable (w : World Tester.Fields) :
  reachable w -> path_tracks_position w.
Proof.
  apply (reachable_invariant path_tracks_position).
  - intros w0 Hw0. destruct (_tracking_thread (self w0)) as [tid0|] eqn:Hth.
    + rewrite (start_tracking_busy w0 tid0 Hth). by apply (tracks_position_same w0).
    + rewrite (start_tracking_idle w0 Hth). apply (tracks_position_same w0); [done|done|].
      intros tid; simpl. intros Htid.
      apply lookup_app_Some in Htid as [Htid|[_ Htid]]; [done|].
      by destruct (tid - length (threads w0))%nat.
  - apply tracks_position_thread_step.
  - intros b w0 Hw0. by apply (tracks_position_same w0).
  - intros o w0 Hw0. by apply (tracks_position_same w0).
  - intros o w0 Hw0. by apply (tracks_position_same w0).
  - intros tid. done.
Qed.

(** C10.  In every world the path variant reaches, a loop thread that is in
    its loop with the flag set and reads a relative event whose code is
    neither [REL_X] nor [REL_Y] appends exactly one point to [path_data]: it
    carries the event's timestamp and the (x, y) of the point that was last
    before it. *)
Theorem C10_other_axis_event_appends_duplicate_point
  (sched : list Action) (w : World Tester.Fields) (tid : nat) (e : InputEvent) :
  run sched init = Some w ->
  threads w !! tid = Some InLoop ->
  _is_running (self w) = true ->
  type e = ecodes.EV_REL ->
  code e <> ecodes.REL_X ->
  code e <> ecodes.REL_Y ->
  exists w' p,
    thread_step (DoRead tid (Yield e)) w = Some w'
    /\ last (Tester.get_path w) = Some p
    /\ Tester.get_path w'
       = Tester.get_path w
         ++ [(timestamp e, fst (Tester.point_xy p), snd (Tester.point_xy p))].
Proof.
  intros Hrun Hpc Hflag Hty Hcx Hcy.
  pose proof (tracks_position_reachable w (ex_intro _ sched Hrun)) as Hinv.
  unfold path_tracks_position in Hinv.
  destruct (last (Tester.get_path w)) as [p|] eqn:Hlast; [|by destruct (Hinv tid)].
  eexists _, p. rewrite Hinv. simpl. rewrite decide_True by done.
  split; [done|]. split; [done|].
  unfold _event_loop_read, Tester.get_path; simpl. rewrite Hflag; simpl.
  unfold Tester.event_body.
  by rewrite (proj2 (Z.eqb_eq _ _) Hty), (proj2 (Z.eqb_neq _ _) Hcx),
    (proj2 (Z.eqb_neq _ _) Hcy).
Qed.

(** A scroll-wheel event read by the loop of [tracking_path_world]. *)
Lemma C10_other_axis_event_witness :
  run [CallStart; Th (DoGrab 0 (GrabOk 0%Q))] init = Some tracking_path_world
  /\ threads tracking_path_world !! 0%nat = Some InLoop
  /\ _is_running (self tracking_path_world) = true
  /\ type wheel = ecodes.EV_REL
  /\ code wheel <> ecodes.REL_X
  /\ code wheel <> ecodes.REL_Y
  /\ exists w' p,
       thread_step (DoRead 0 (Yield wheel)) tracking_path_world = Some w'
       /\ last (Tester.get_path tracking_path_world) = Some p
       /\ Tester.get_path w'
          = Tester.get_path tracking_path_world
            ++ [(timestamp wheel, fst (Tester.point_xy p), snd (Tester.point_xy p))].
Proof.
  split; [reflexivity|]. split; [reflexivity|]. split; [reflexivity|].
  split; [reflexivity|]. split; [discriminate|]. split; [discriminate|].
  apply (C10_other_axis_event_appends_duplicate_point
           [CallStart; Th (DoGrab 0 (GrabOk 0%Q))] tracking_path_world 0 wheel).
  - reflexivity.
  - reflexivity.
  - reflexivity.
  - reflexivity.
  - discriminate.
  - discriminate.
Defined.

(** ** Enumeration *)

Lemma find_all_mice_loop_spec fs :
  device_errors_are_OSErrors fs ->
  forall device_paths mice,
    find_all_mice_loop fs device_paths mice = Returns (mice ++ omap (candidate fs) device_paths).
Proof.
  intros Herr. induction device_paths as [|path rest IH]; intros mice; simpl.
  - by rewrite app_nil_r.
  - specialize (Herr path). unfold candidate.
    destruct (open_device fs path) as [device|e].
    + destruct (capabilities device) as [caps|e].
      * destruct (is_mouse caps); rewrite IH; [by rewrite <- app_assoc|done].
      * rewrite Herr. apply IH.
    + rewrite Herr. apply IH.
Qed.

(** C7, refuted as stated.  When listing [/dev/input] raises
    [PermissionError], [find_all_mice()] raises it to its caller. *)
Lemma C7_counterexample :
  find_all_mice unreadable_namespace = ([], Raises permission_denied).
Proof. reflexivity. Qed.

(** C7, amended.  When every failure to open or query a device is an
    [OSError], [find_all_mice()] skips the failing devices without a message
    and returns, in directory order, the path and name of every [event*]
    entry that opens and has both relative axes; when listing the namespace
    raises [FileNotFoundError] it prints a line on stderr and returns the
    empty list; any other exception from the listing is raised to the
    caller. *)
Theorem C7_find_all_mice_skips_devices_and_missing_directory (fs : DevFS) :
  device_errors_are_OSErrors fs ->
  match listdir fs with
  | Returns entries =>
    find_all_mice fs
    = ([], Returns (omap (candidate fs)
                      (map path_join
                         (filter (fun fn => String.prefix "event" fn = true) entries))))
  | Raises e =>
    if is_FileNotFoundError e
    then find_all_mice fs
         = ([Stderr "The /dev/input directory was not found."], Returns [])
    else find_all_mice fs = ([], Raises e)
  end.
Proof.
  intros Herr. unfold find_all_mice.
  destruct (listdir fs) as [entries|e].
  - by rewrite find_all_mice_loop_spec.
  - by destruct (is_FileNotFoundError e).
Qed.

(** In [example_namespace] the device that cannot be opened is skipped and
    the mouse is returned. *)
Lemma C7_find_all_mice_witness :
  device_errors_are_OSErrors example_namespace
  /\ find_all_mice example_namespace
     = ([], Returns [("/dev/input/event0", "Logitech G Pro")]).
Proof.
  assert (Herr : device_errors_are_OSErrors example_namespace).
  { intros path. simpl.
    destruct (String.eqb path "/dev/input/event0"); [exact I|].
    destruct (String.eqb path "/dev/input/event2"); [exact I|reflexivity]. }
  split; [exact Herr|].
  exact (C7_find_all_mice_skips_devices_and_missing_directory example_namespace Herr).
Defined.

(** * Further properties of the code *)

(** ** [find_all_mice] *)

Lemma is_mouse_spec caps :
  is_mouse caps = true
  <-> exists codes, caps !! ecodes.EV_REL = Some codes
                    /\ ecodes.REL_X ∈ codes /\ ecodes.REL_Y ∈ codes.
Proof.
  unfold is_mouse, py_in. rewrite !andb_true_iff, !bool_decide_eq_true.
  split.
  - intros [[[codes Hc] Hx] Hy]. rewrite Hc in Hx, Hy. by exists codes.
  - intros (codes & Hc & Hx & Hy). rewrite Hc. by repeat split; [eexists|..].
Qed.

Lemma candidate_spec fs path d :
  candidate fs path = Some d
  <-> fst d = path
      /\ exists device caps codes,
           open_device fs path = Returns device /\ name device = snd d
           /\ capabilities device = Returns caps
           /\ caps !! ecodes.EV_REL = Some codes
           /\ ecodes.REL_X ∈ codes /\ ecodes.REL_Y ∈ codes.
Proof.
  unfold candidate. split.
  - destruct (open_device fs path) as [device|e]; [|done].
    destruct (capabilities device) as [caps|e] eqn:Hcaps; [|done].
    destruct (is_mouse caps) eqn:Hm; [|done].
    intros [= <-]. split; [done|].
    apply is_mouse_spec in Hm as (codes & ? & ? & ?).
    by exists device, caps, codes.
  - intros [Hp (device & caps & codes & -> & Hn & -> & Hc)].
    rewrite (proj2 (is_mouse_spec caps)) by (by exists codes).
    destruct d as [p n]; simpl in *. by subst.
Qed.

(** When the loop returns, it has collected the candidates and nothing
    else. *)
Lemma find_all_mice_loop_returns fs device_paths : forall acc mice,
  find_all_mice_loop fs device_paths acc = Returns mice ->
  mice = acc ++ omap (candidate fs) device_paths.
Proof.
  induction device_paths as [|path rest IH]; intros acc mice; simpl.
  - intros [= <-]. by rewrite app_nil_r.
  - unfold candidate.
    destruct (open_device fs path) as [device|e].
    + destruct (capabilities device) as [caps|e].
      * destruct (is_mouse caps); intros H%IH; [by rewrite <- app_assoc in H|done].
      * destruct (is_OSError e); [apply IH|done].
    + destruct (is_OSError e); [apply IH|done].
Qed.

Lemma find_all_mice_returns fs out mice entries :
  listdir fs = Returns entries ->
  find_all_mice fs = (out, Returns mice) ->
  out = [] /\ mice = omap (candidate fs) (event_paths entries).
Proof.
  unfold find_all_mice. intros ->. intros [= <- H].
  split; [done|]. by apply find_all_mice_loop_returns in H.
Qed.

Lemma candidates_sublist fs paths :
  map fst (omap (candidate fs) paths) `sublist_of` paths.
Proof.
  induction paths as [|path rest IH]; simpl; [done|].
  destruct (candidate fs path) as [d|] eqn:Hd.
  - apply candidate_spec in Hd as [<- _]. simpl. by apply sublist_skip.
  - by apply sublist_cons.
Qed.

Lemma path_join_inj : Inj (=) (=) path_join.
Proof. intros fn1 fn2 H. unfold path_join in H. by simplify_eq. Qed.

(** X1.  When the directory can be listed and [find_all_mice()] returns, a
    pair (path, name) is in the result exactly when the path is
    [/dev/input/fn] for a directory entry [fn] that starts with "event", the
    device at that path opens under that name and answers the capability
    query, and its relative-event codes contain both [REL_X] and [REL_Y]. *)
Theorem X1_find_all_mice_membership
  (fs : DevFS) (out : list Output) (mice : list (string * string))
  (entries : list string) (path nm : string) :
  listdir fs = Returns entries ->
  find_all_mice fs = (out, Returns mice) ->
  (path, nm) ∈ mice
  <-> (exists fn, fn ∈ entries /\ String.prefix "event" fn = true
                  /\ path = "/dev/input/" +:+ fn)
      /\ (exists device caps codes,
            open_device fs path = Returns device /\ name device = nm
            /\ capabilities device = Returns caps
            /\ caps !! ecodes.EV_REL = Some codes
            /\ ecodes.REL_X ∈ codes /\ ecodes.REL_Y ∈ codes).
Proof.
  intros Hls Hret. destruct (find_all_mice_returns _ _ _ _ Hls Hret) as [_ ->].
  rewrite list_elem_of_omap. unfold event_paths. split.
  - intros (p & Hp & Hc). apply candidate_spec in Hc as [Hfst Hdev]. simpl in *. subst p.
    split; [|done].
    apply list_elem_of_fmap in Hp as (fn & -> & Hfn).
    apply list_elem_of_filter in Hfn as [Hpre Hfn]. by exists fn.
  - intros [(fn & Hfn & Hpre & ->) Hdev]. exists (path_join fn). split.
    + apply list_elem_of_fmap. exists fn. split; [done|].
      by apply list_elem_of_filter.
    + by apply candidate_spec.
Qed.

Lemma X1_find_all_mice_membership_witness :
  listdir example_namespace = Returns ["event0"; "event1"; "mice"; "event2"]
  /\ find_all_mice example_namespace
     = ([], Returns [("/dev/input/event0", "Logitech G Pro")])
  /\ exists fn, fn ∈ ["event0"; "event1"; "mice"; "event2"]
                /\ String.prefix "event" fn = true
                /\ "/dev/input/event0" = "/dev/input/" +:+ fn.
Proof.
  split; [reflexivity|]. split; [reflexivity|].
  apply (proj1 (X1_find_all_mice_membership example_namespace [] _ _
                  "/dev/input/event0" "Logitech G Pro" eq_refl eq_refl)).
  apply list_elem_of_here.
Defined.

(** X2.  The paths [find_all_mice()] returns follow the order of the
    directory listing, and no path is returned twice when the listing has no
    entry twice. *)
Theorem X2_find_all_mice_keeps_directory_order
  (fs : DevFS) (out : list Output) (mice : list (string * string))
  (entries : list string) :
  listdir fs = Returns entries ->
  find_all_mice fs = (out, Returns mice) ->
  map fst mice `sublist_of` map path_join entries
  /\ (NoDup entries -> NoDup (map fst mice)).
Proof.
  intros Hls Hret. destruct (find_all_mice_returns _ _ _ _ Hls Hret) as [_ ->].
  assert (Hsub : map fst (omap (candidate fs) (event_paths entries))
                 `sublist_of` map path_join entries).
  { etrans; [apply candidates_sublist|]. unfold event_paths.
    apply (fmap_sublist path_join), sublist_filter. }
  split; [done|]. intros Hnd. eapply sublist_NoDup; [|exact Hsub].
  apply (NoDup_fmap_2 (Inj0:=path_join_inj) path_join), Hnd.
Qed.

Lemma X2_find_all_mice_order_witness :
  listdir example_namespace = Returns ["event0"; "event1"; "mice"; "event2"]
  /\ find_all_mice example_namespace
     = ([], Returns [("/dev/input/event0", "Logitech G Pro")])
  /\ NoDup ["event0"; "event1"; "mice"; "event2"]
  /\ ["/dev/input/event0"]
     `sublist_of` map path_join ["event0"; "event1"; "mice"; "event2"]
  /\ NoDup ["/dev/input/event0"].
Proof.
  assert (Hnd : NoDup ["event0"; "event1"; "mice"; "event2"]).
  { repeat (apply NoDup_cons_2;
              [intros H;
               repeat (apply elem_of_cons in H as [H|H]; [discriminate H|]);
               exact (proj1 (elem_of_nil _) H)|]).
    apply NoDup_nil_2. }
  split; [reflexivity|]. split; [reflexivity|]. split; [exact Hnd|].
  destruct (X2_find_all_mice_keeps_directory_order example_namespace [] _ _
              eq_refl eq_refl) as [Hsub Hnodup].
  split; [exact Hsub | exact (Hnodup Hnd)].
Defined.

Lemma find_all_mice_loop_raises fs pre p post e : forall acc,
  (forall q e', q ∈ pre -> failure fs q = Some e' -> is_OSError e' = true) ->
  failure fs p = Some e ->
  is_OSError e = false ->
  find_all_mice_loop fs (pre ++ p :: post) acc = Raises e.
Proof.
  intros acc Hpre Hp He. revert acc.
  induction pre as [|q pre IH]; intros acc; simpl.
  - unfold failure in Hp.
    destruct (open_device fs p) as [device|e0].
    + destruct (capabilities device) as [caps|e0]; [done|].
      injection Hp as ->. by rewrite He.
    + injection Hp as ->. by rewrite He.
  - assert (Hq : forall e', failure fs q = Some e' -> is_OSError e' = true).
    { intros e'. apply Hpre. apply list_elem_of_here. }
    assert (IH' : forall acc, find_all_mice_loop fs (pre ++ p :: post) acc = Raises e).
    { apply IH. intros q' e' Hq'. apply Hpre. by apply list_elem_of_further. }
    unfold failure in Hq.
    destruct (open_device fs q) as [device|e0].
    + destruct (capabilities device) as [caps|e0].
      * by destruct (is_mouse caps).
      * by rewrite (Hq e0 eq_refl).
    + by rewrite (Hq e0 eq_refl).
Qed.

(** X3.  An exception outside [OSError] from opening or querying an event
    node ends the enumeration: when every earlier node fails, if at all, with
    an [OSError], [find_all_mice()] raises that exception to its caller and
    the devices found before it are not returned. *)
Theorem X3_find_all_mice_raises_other_exceptions
  (fs : DevFS) (entries pre post : list string) (p : string) (e : PyExc) :
  listdir fs = Returns entries ->
  event_paths entries = pre ++ p :: post ->
  (forall q e', q ∈ pre -> failure fs q = Some e' -> is_OSError e' = true) ->
  failure fs p = Some e ->
  is_OSError e = false ->
  find_all_mice fs = ([], Raises e).
Proof.
  intros Hls Hsplit Hpre Hp He. unfold find_all_mice. rewrite Hls.
  fold (event_paths entries). rewrite Hsplit.
  by rewrite (find_all_mice_loop_raises fs pre p post e).
Qed.

Lemma X3_find_all_mice_raises_witness :
  listdir broken_namespace = Returns ["event0"; "event1"; "event3"]
  /\ event_paths ["event0"; "event1"; "event3"]
     = ["/dev/input/event0"; "/dev/input/event1"] ++ "/dev/input/event3" :: []
  /\ failure broken_namespace "/dev/input/event3" = Some broken_device
  /\ is_OSError broken_device = false
  /\ find_all_mice broken_namespace = ([], Raises broken_device).
Proof.
  split; [reflexivity|]. split; [reflexivity|]. split; [reflexivity|].
  split; [reflexivity|].
  apply (X3_find_all_mice_raises_other_exceptions broken_namespace
           ["event0"; "event1"; "event3"]
           ["/dev/input/event0"; "/dev/input/event1"] [] "/dev/input/event3"
           broken_device eq_refl eq_refl).
  - intros q e' Hq.
    apply elem_of_cons in Hq as [->|Hq].
    { vm_compute. discriminate. }
    apply elem_of_cons in Hq as [->|Hq].
    { vm_compute. intros [= <-]. reflexivity. }
    by apply elem_of_nil in Hq.
  - reflexivity.
  - reflexivity.
Defined.

Lemma find_all_mice_loop_ext fs fs' paths : forall acc,
  (forall p, p ∈ paths -> open_device fs p = open_device fs' p) ->
  find_all_mice_loop fs paths acc = find_all_mice_loop fs' paths acc.
Proof.
  induction paths as [|path rest IH]; intros acc Hagree; simpl; [done|].
  rewrite <- (Hagree path) by apply list_elem_of_here.
  assert (IH' : forall acc, find_all_mice_loop fs rest acc = find_all_mice_loop fs' rest acc).
  { intros acc'. apply IH. intros p Hp. apply Hagree. by apply list_elem_of_further. }
  destruct (open_device fs path) as [device|e].
  - destruct (capabilities device) as [caps|e].
    + by destruct (is_mouse caps).
    + by destruct (is_OSError e).
  - by destruct (is_OSError e).
Qed.

(** X4.  [find_all_mice()] opens nothing but the directory entries whose
    name starts with "event": two namespaces with the same listing whose
    event nodes answer alike give the same output and the same result,
    however their other nodes answer. *)
Theorem X4_find_all_mice_opens_only_event_nodes (fs fs' : DevFS) :
  listdir fs = listdir fs' ->
  (forall entries fn,
      listdir fs = Returns entries -> fn ∈ entries ->
      String.prefix "event" fn = true ->
      open_device fs ("/dev/input/" +:+ fn) = open_device fs' ("/dev/input/" +:+ fn)) ->
  find_all_mice fs = find_all_mice fs'.
Proof.
  intros Hls Hagree. unfold find_all_mice. rewrite <- Hls.
  destruct (listdir fs) as [entries|e]; [|done].
  f_equal. apply find_all_mice_loop_ext. intros p Hp.
  apply list_elem_of_fmap in Hp as (fn & -> & Hfn).
  apply list_elem_of_filter in Hfn as [Hpre Hfn].
  by apply (Hagree entries).
Qed.

Lemma X4_find_all_mice_event_nodes_witness :
  listdir example_namespace = listdir other_nodes_differ
  /\ open_device example_namespace "/dev/input/mice"
     <> open_device other_nodes_differ "/dev/input/mice"
  /\ find_all_mice example_namespace = find_all_mice other_nodes_differ.
Proof.
  split; [reflexivity|]. split; [discriminate|].
  apply X4_find_all_mice_opens_only_event_nodes; [reflexivity|].
  intros entries fn [= <-] Hfn Hpre.
  apply elem_of_cons in Hfn as [->|Hfn]; [reflexivity|].
  apply elem_of_cons in Hfn as [->|Hfn]; [reflexivity|].
  apply elem_of_cons in Hfn as [->|Hfn]; [discriminate Hpre|].
  apply elem_of_cons in Hfn as [->|Hfn]; [reflexivity|].
  by apply elem_of_nil in Hfn.
Defined.

(** ** [select_mouse_device] *)

Section SelectFacts.
Variable int_of : string -> option Z.
Implicit Types (devices : list (string * string)) (lines : list string).

(** An index the guard lets through is inside the list. *)
Lemma py_getitem_in_range {A} (l : list A) (n : Z) :
  1 <= n <= Z.of_nat (length l) ->
  exists d, py_getitem l (n - 1) = Some d /\ l !! Z.to_nat (n - 1) = Some d.
Proof.
  intros Hn. unfold py_getitem.
  rewrite (proj2 (Z.leb_le 0 (n - 1))) by lia.
  destruct (l !! Z.to_nat (n - 1)) as [d|] eqn:Hd; [by exists d|].
  apply lookup_ge_None in Hd. lia.
Qed.

Lemma select_loop_chosen devices lines : forall out,
  match snd (select_loop int_of devices lines out) with
  | Chosen path =>
    exists choice_str n nm,
      choice_str ∈ lines /\ int_of choice_str = Some n
      /\ 1 <= n <= Z.of_nat (length devices)
      /\ devices !! Z.to_nat (n - 1) = Some (path, nm)
  | EndOfInput => True
  | IndexOutOfRange => False
  end.
Proof.
  induction lines as [|line rest IH]; intros out; simpl; [done|].
  destruct (int_of line) as [n|] eqn:Hint.
  - destruct ((1 <=? n) && (n <=? Z.of_nat (length devices))) eqn:Hrange.
    + apply andb_true_iff in Hrange as [H1%Z.leb_le H2%Z.leb_le].
      destruct (py_getitem_in_range devices n (conj H1 H2)) as ([path nm] & -> & Hd).
      simpl. exists line, n, nm. repeat split; try done. apply list_elem_of_here.
    + specialize (IH ((out ++ [prompt]) ++ [invalid_number devices])).
      destruct (snd (select_loop _ _ _ _)); try done.
      destruct IH as (c & m & nm & Hc & ?). exists c, m, nm.
      split; [by apply list_elem_of_further|done].
  - specialize (IH ((out ++ [prompt]) ++ [not_a_number])).
    destruct (snd (select_loop _ _ _ _)); try done.
    destruct IH as (c & m & nm & Hc & ?). exists c, m, nm.
    split; [by apply list_elem_of_further|done].
Qed.

Lemma select_loop_skips devices bad : forall out good rest n d,
  Forall (fun line => accepted int_of devices line = false) bad ->
  int_of good = Some n ->
  1 <= n <= Z.of_nat (length devices) ->
  devices !! Z.to_nat (n - 1) = Some d ->
  select_loop int_of devices (bad ++ good :: rest) out
  = (out ++ concat (map (rejection int_of devices) bad) ++ [prompt], Chosen (fst d)).
Proof.
  induction bad as [|line bad IH]; intros out good rest n d Hbad Hgood Hn Hd; simpl.
  - rewrite Hgood.
    rewrite (proj2 (andb_true_iff _ _)) by (split; apply Z.leb_le; lia).
    destruct (py_getitem_in_range devices n Hn) as (d' & -> & Hd').
    by simplify_eq.
  - inversion Hbad as [|? ? Hline Hbad']; subst.
    unfold accepted in Hline. unfold rejection at 1.
    destruct (int_of line) as [m|].
    + rewrite Hline. rewrite (IH _ good rest n d) by done.
      by rewrite <- !app_assoc.
    + rewrite (IH _ good rest n d) by done.
      by rewrite <- !app_assoc.
Qed.

Lemma select_loop_no_devices lines : forall out,
  snd (select_loop int_of [] lines out) = EndOfInput.
Proof.
  induction lines as [|line rest IH]; intros out; simpl; [done|].
  destruct (int_of line) as [n|]; [|apply IH].
  change (Z.of_nat 0) with 0.
  destruct ((1 <=? n) && (n <=? 0)) eqn:Hrange; [|apply IH].
  apply andb_true_iff in Hrange as [H1%Z.leb_le H2%Z.leb_le]. lia.
Qed.

End SelectFacts.

(** X5.  Whatever the operator types and however [int()] reads it,
    [select_mouse_device] returns only the path of a listed device: the path
    at position n of the menu for a typed line that reads as a number n
    between 1 and the number of devices.  Its indexing never raises
    [IndexError] and never reaches a device through a negative index. *)
Theorem X5_select_mouse_device_returns_a_listed_device
  (int_of : string -> option Z) (devices : list (string * string))
  (lines : list string) :
  match snd (select_mouse_device int_of devices lines) with
  | Chosen path =>
    exists choice_str n nm,
      choice_str ∈ lines /\ int_of choice_str = Some n
      /\ 1 <= n <= Z.of_nat (length devices)
      /\ devices !! Z.to_nat (n - 1) = Some (path, nm)
  | EndOfInput => True
  | IndexOutOfRange => False
  end.
Proof. apply select_loop_chosen. Qed.

(** X6.  Lines that are not a number, or a number outside 1..len(devices),
    are answered with a message and a new prompt; the first accepted line
    decides, the lines after it are not read, and the console shows the menu,
    one prompt and one message per rejected line, and the last prompt. *)
Theorem X6_select_mouse_device_reprompts
  (int_of : string -> option Z) (devices : list (string * string))
  (bad rest : list string) (good : string) (n : Z) (d : string * string) :
  Forall (fun line => accepted int_of devices line = false) bad ->
  int_of good = Some n ->
  1 <= n <= Z.of_nat (length devices) ->
  devices !! Z.to_nat (n - 1) = Some d ->
  select_mouse_device int_of devices (bad ++ good :: rest)
  = (menu devices ++ concat (map (rejection int_of devices) bad) ++ [prompt],
     Chosen (fst d)).
Proof. intros. by eapply select_loop_skips. Qed.

Lemma X6_select_mouse_device_reprompts_witness :
  Forall (fun line => accepted small_int two_mice line = false) ["0"; "x"; "3"; "-1"]
  /\ small_int "2" = Some 2
  /\ 1 <= 2 <= Z.of_nat (length two_mice)
  /\ two_mice !! Z.to_nat (2 - 1) = Some ("/dev/input/event7", "Razer Viper")
  /\ snd (select_mouse_device small_int two_mice (["0"; "x"; "3"; "-1"] ++ "2" :: ["1"]))
     = Chosen "/dev/input/event7".
Proof.
  assert (Hbad : Forall (fun line => accepted small_int two_mice line = false)
                   ["0"; "x"; "3"; "-1"]).
  { repeat constructor. }
  assert (Hn : 1 <= 2 <= Z.of_nat (length two_mice)) by (simpl; lia).
  split; [exact Hbad|]. split; [reflexivity|]. split; [exact Hn|].
  split; [reflexivity|].
  rewrite (X6_select_mouse_device_reprompts small_int two_mice
             ["0"; "x"; "3"; "-1"] ["1"] "2" 2 ("/dev/input/event7", "Razer Viper")
             Hbad eq_refl Hn eq_refl).
  reflexivity.
Defined.

(** X7.  With an empty device list [select_mouse_device] accepts no line at
    all: it never returns, and ends only when the input does. *)
Theorem X7_select_mouse_device_needs_a_device
  (int_of : string -> option Z) (lines : list string) :
  snd (select_mouse_device int_of [] lines) = EndOfInput.
Proof. apply select_loop_no_devices. Qed.

(** ** [plot_mouse_path] *)

Lemma deltas_cons x y l : deltas (x :: y :: l) = (y - x) :: deltas (y :: l).
Proof.
  unfold deltas. simpl length. rewrite !Nat.sub_succ, !Nat.sub_0_r.
  change (seq 1 (S (length l))) with (1%nat :: seq 2 (length l)).
  rewrite List.map_cons. f_equal.
  rewrite <- seq_shift, List.map_map.
  apply List.map_ext_in. intros i Hi%in_seq.
  destruct i as [|i]; [lia|]. simpl. by rewrite Nat.sub_0_r.
Qed.

Lemma deltas_length l : length (deltas l) = (length l - 1)%nat.
Proof. unfold deltas. by rewrite length_map, length_seq. Qed.

Lemma list_last_indep {A} (y : A) l d d' : List.last (y :: l) d = List.last (y :: l) d'.
Proof.
  revert y. induction l as [|z l IHl]; intros y; [done|].
  change (List.last (y :: z :: l) d) with (List.last (z :: l) d).
  change (List.last (y :: z :: l) d') with (List.last (z :: l) d').
  apply IHl.
Qed.

Lemma list_last_map {A B} (f : A -> B) l d : List.last (map f l) (f d) = f (List.last l d).
Proof.
  induction l as [|y [|z l] IH]; [done|done|].
  change (List.last (map f (y :: z :: l)) (f d)) with (List.last (map f (z :: l)) (f d)).
  by rewrite IH.
Qed.

(** The differences add up to the distance between the ends. *)
Lemma deltas_telescope l x : sum_list (deltas (x :: l)) = List.last (x :: l) x - x.
Proof.
  revert x; induction l as [|y l IH]; intros x.
  - unfold deltas; simpl. lia.
  - rewrite deltas_cons. simpl sum_list. unfold sum_list in IH. rewrite IH.
    change (List.last (x :: y :: l) x) with (List.last (y :: l) x).
    rewrite (list_last_indep y l x y). lia.
Qed.

Lemma deltas_walk_x ms : forall x y,
  deltas (x :: map (fun p => fst (Tester.point_xy p)) (walk x y ms)) = map dx ms.
Proof.
  induction ms as [|m ms IH]; intros x y; [done|].
  cbn [walk map List.map fst snd Tester.point_xy]. rewrite deltas_cons, IH.
  f_equal. lia.
Qed.

Lemma deltas_walk_y ms : forall x y,
  deltas (y :: map (fun p => snd (Tester.point_xy p)) (walk x y ms)) = map dy ms.
Proof.
  induction ms as [|m ms IH]; intros x y; [done|].
  cbn [walk map List.map fst snd Tester.point_xy]. rewrite deltas_cons, IH.
  f_equal. lia.
Qed.

Lemma plot_two_points p q path :
  plot_mouse_path (p :: q :: path)
  = ([Stdout "Displaying plot. Close the plot window to exit the program."],
     Shown (map (fun t => ((t - Tester.point_time p) * 1000)%Q)
              (map Tester.point_time (q :: path)))
           (deltas (map (fun p => fst (Tester.point_xy p)) (p :: q :: path)))
           (deltas (map (fun p => snd (Tester.point_xy p)) (p :: q :: path)))).
Proof. reflexivity. Qed.

(** X8.  The second early return of [plot_mouse_path] is dead code: whatever
    the path, it never reports "No movement was detected to plot.", because
    a path that passes the first test has a second point. *)
Theorem X8_plot_never_reports_no_movement (path_data : list Tester.PathPoint) :
  snd (plot_mouse_path path_data) <> NoMovement
  /\ Stdout "No movement was detected to plot." ∉ fst (plot_mouse_path path_data).
Proof.
  destruct path_data as [|p [|q path]].
  - split; [done|]. simpl. by intros [=]%list_elem_of_singleton.
  - split; [done|]. simpl. by intros [=]%list_elem_of_singleton.
  - rewrite plot_two_points. split; [done|].
    simpl. by intros [=]%list_elem_of_singleton.
Qed.

(** X9.  A tracking session in which the loop reads no relative event leaves
    a path of one point, and [plot_mouse_path] then draws nothing and reports
    that not enough data points were recorded; with one relative event or
    more it draws. *)
Theorem X9_plot_needs_one_relative_event (t0 : Time) (evs : list InputEvent) :
  exists w, run (session 0 t0 evs) (init : World Tester.Fields) = Some w
    /\ (snd (plot_mouse_path (Tester.get_path w)) = NotEnoughData
        <-> List.filter is_rel evs = []).
Proof.
  exists (events_done 0 evs
            (_event_loop_grab 0 (GrabOk t0)
               (snd (start_tracking (init : World Tester.Fields))))).
  split.
  { unfold session. simpl. unfold _event_loop_grab; simpl. apply run_deliver; done. }
  unfold Tester.get_path, events_done; simpl.
  destruct (tester_fold evs (Tester.record_start t0 init_fields))
    as (q & Hpath & Htimes & _).
  simpl in Hpath. rewrite Hpath. clear Hpath.
  destruct (List.filter is_rel evs) as [|e rel]; destruct q as [|p q]; try done.
Qed.

(** X10.  After one session on a new path tracker that processed the motion
    events [ms], at least one, [plot_mouse_path] plots one dot per event in
    each series: the horizontal series holds the events' horizontal deltas
    (0 for a vertical event) and the vertical series the negated vertical
    deltas (0 for a horizontal event), in the order of the events. *)
Theorem X10_plot_shows_the_event_deltas (t0 : Time) (ms : list MotionEvent) :
  ms <> [] ->
  exists w plot_times,
    run (session 0 t0 (map raw ms)) (init : World Tester.Fields) = Some w
    /\ plot_mouse_path (Tester.get_path w)
       = ([Stdout "Displaying plot. Close the plot window to exit the program."],
          Shown plot_times (map dx ms) (map dy ms))
    /\ length plot_times = length ms.
Proof.
  intros Hms. destruct (tester_session t0 ms) as [Hrun Hpath].
  exists (events_done 0 (map raw ms)
            (_event_loop_grab 0 (GrabOk t0)
               (snd (start_tracking (init : World Tester.Fields))))),
         (map (fun t => ((t - t0) * 1000)%Q) (map Tester.point_time (walk 0 0 ms))).
  split; [exact Hrun|]. rewrite Hpath.
  destruct ms as [|m ms]; [done|]. split.
  - rewrite <- (deltas_walk_x (m :: ms) 0 0), <- (deltas_walk_y (m :: ms) 0 0).
    reflexivity.
  - by rewrite !length_map, walk_length.
Qed.

Lemma X10_plot_shows_the_event_deltas_witness :
  [ {| axis := Horizontal; delta := 3; instant := 1%Q |};
    {| axis := Vertical; delta := 4; instant := 2%Q |} ] <> []
  /\ exists w plot_times,
       run (session 0 0%Q [horizontal 3 1%Q; vertical 4 2%Q])
           (init : World Tester.Fields) = Some w
       /\ plot_mouse_path (Tester.get_path w)
          = ([Stdout "Displaying plot. Close the plot window to exit the program."],
             Shown plot_times [3; 0] [0; -4])
       /\ length plot_times = 2%nat.
Proof.
  split; [discriminate|].
  apply (X10_plot_shows_the_event_deltas 0%Q
           [ {| axis := Horizontal; delta := 3; instant := 1%Q |};
             {| axis := Vertical; delta := 4; instant := 2%Q |} ]).
  discriminate.
Defined.

(** X11.  For every path of two points or more [plot_mouse_path] draws, with
    one dot less than there are points in each series, and the dots of a
    series add up to the displacement between the first and the last point
    on that axis. *)
Theorem X11_plot_deltas_add_up (path_data : list Tester.PathPoint) (p0 : Tester.PathPoint) :
  (2 <= length path_data)%nat ->
  exists plot_times delta_x delta_y,
    snd (plot_mouse_path path_data) = Shown plot_times delta_x delta_y
    /\ length plot_times = (length path_data - 1)%nat
    /\ length delta_x = (length path_data - 1)%nat
    /\ length delta_y = (length path_data - 1)%nat
    /\ sum_list delta_x
       = fst (Tester.point_xy (List.last path_data p0))
         - fst (Tester.point_xy (List.hd p0 path_data))
    /\ sum_list delta_y
       = snd (Tester.point_xy (List.last path_data p0))
         - snd (Tester.point_xy (List.hd p0 path_data)).
Proof.
  intros Hlen. destruct path_data as [|p [|q path]]; simpl in Hlen; try lia.
  rewrite plot_two_points. eexists _, _, _. split; [reflexivity|].
  rewrite !deltas_length, !length_map. repeat split.
  - rewrite (List.map_cons _ p), deltas_telescope.
    rewrite <- (List.map_cons (fun p => fst (Tester.point_xy p)) p).
    by rewrite (list_last_map (fun p => fst (Tester.point_xy p))),
      (list_last_indep p (q :: path) p p0).
  - rewrite (List.map_cons _ p), deltas_telescope.
    rewrite <- (List.map_cons (fun p => snd (Tester.point_xy p)) p).
    by rewrite (list_last_map (fun p => snd (Tester.point_xy p))),
      (list_last_indep p (q :: path) p p0).
Qed.

Lemma X11_plot_deltas_add_up_witness :
  (2 <= length example_path)%nat
  /\ exists plot_times delta_x delta_y,
       snd (plot_mouse_path example_path) = Shown plot_times delta_x delta_y
       /\ sum_list delta_x = 3 - 0
       /\ sum_list delta_y = -4 - 0.
Proof.
  assert (Hlen : (2 <= length example_path)%nat) by (simpl; lia).
  split; [exact Hlen|].
  destruct (X11_plot_deltas_add_up example_path (0%Q, 0, 0) Hlen)
    as (plot_times & delta_x & delta_y & Hshown & _ & _ & _ & Hx & Hy).
  exists plot_times, delta_x, delta_y.
  split; [exact Hshown|]. split; [exact Hx | exact Hy].
Defined.

(** ** The lifecycle of the tracker *)

Section LifecycleFacts.
Context {A : Type} `{V : Variant A}.
Implicit Types (w : World A) (sched : list Action) (acts : list ThAction).

(** An invariant of the steps of the program holds along every run. *)
Lemma run_invariant (I : World A -> Prop) :
  (forall a w w', I w -> step a w = Some w' -> I w') ->
  forall sched w w', I w -> run sched w = Some w' -> I w'.
Proof.
  intros Hstep. induction sched as [|a sched IH]; intros w w' Hw Hrun; simpl in Hrun.
  - by inversion Hrun; subst.
  - destruct (step a w) as [w1|] eqn:Ha; [|done]. simpl in Hrun.
    eapply IH; [|exact Hrun]. by eapply Hstep.
Qed.

Lemma lifecycle_consistent_step a w w' :
  lifecycle_consistent w -> step a w = Some w' -> lifecycle_consistent w'.
Proof.
  intros [Hiff Hlt]. destruct a as [|during|a]; simpl.
  - intros [= <-]. destruct (_tracking_thread (self w)) as [tid|] eqn:Hth.
    + rewrite (start_tracking_busy w tid Hth). split; simpl; [by rewrite Hth|].
      by rewrite Hth.
    + rewrite (start_tracking_idle w Hth). split; simpl.
      * split; [by eexists|done].
      * intros tid [= <-]. rewrite length_app; simpl. lia.
  - unfold stop_tracking.
    destruct (_tracking_thread (self w)) as [tid|] eqn:Hth;
      [|by intros [= <-]; split; rewrite ?Hth].
    destruct (_is_running (self w)) eqn:Hflag;
      [|by intros [= <-]; split; rewrite ?Hth, ?Hflag].
    destruct (run_threads during (set_is_running false w)) as [w1|] eqn:Hrun; [|done].
    simpl. intros [= <-]. split; simpl; [|done].
    destruct (run_threads_lifecycle _ _ _ Hrun) as (_ & -> & _). simpl.
    split; [done|]. by intros [? [=]].
  - intros Hstep. destruct (thread_step_lifecycle _ _ _ Hstep) as (E1 & E2 & E3).
    split; [by rewrite E1, E2|]. rewrite E1, E3. apply Hlt.
Qed.

Lemma lifecycle_consistent_reachable sched w :
  run sched init = Some w -> lifecycle_consistent w.
Proof.
  apply (run_invariant lifecycle_consistent); [apply lifecycle_consistent_step|].
  split; simpl; [|done]. split; [done|]. by intros [? [=]].
Qed.

(** After [stop_tracking()] returns, the flag is cleared. *)
Lemma stop_tracking_clears_flag sched during w c w1 :
  run sched init = Some w ->
  stop_tracking during w = Some (c, w1) ->
  _is_running (self w1) = false /\ _tracking_thread (self w1) = None.
Proof.
  intros Hreach. destruct (lifecycle_consistent_reachable _ _ Hreach) as [Hiff _].
  unfold stop_tracking.
  destruct (_tracking_thread (self w)) as [tid|] eqn:Hth.
  - destruct (_is_running (self w)) eqn:Hflag.
    + destruct (run_threads during (set_is_running false w)) as [w'|] eqn:Hrun; [|done].
      simpl. intros [= _ <-]. simpl.
      by destruct (run_threads_lifecycle _ _ _ Hrun) as (_ & -> & _).
    + exfalso. destruct Hiff as [_ Hiff].
      assert (false = true) by (apply Hiff; by eexists). done.
  - intros [= _ <-]. split; [|done].
    destruct (_is_running (self w)); [|done].
    destruct Hiff as [Hiff _]. by destruct (Hiff eq_refl).
Qed.

End LifecycleFacts.

(** X12.  In every world the program reaches, in either variant, the flag
    [_is_running] is set exactly when a tracking thread is recorded, and the
    recorded thread is one that was spawned. *)
Theorem X12_flag_set_iff_thread_recorded
  {A : Type} `{V : Variant A} (sched : list Action) (w : World A) :
  run sched init = Some w ->
  (_is_running (self w) = true <-> is_Some (_tracking_thread (self w)))
  /\ (forall tid, _tracking_thread (self w) = Some tid -> is_Some (threads w !! tid)).
Proof.
  intros Hrun. destruct (lifecycle_consistent_reachable _ _ Hrun) as [Hiff Hlt].
  split; [done|]. intros tid Htid. apply lookup_lt_is_Some. by apply Hlt.
Qed.

Lemma X12_flag_set_iff_thread_recorded_witness :
  run [CallStart; Th (DoGrab 0 (GrabOk 0%Q))] init = Some tracking_world
  /\ _is_running (self tracking_world) = true
  /\ is_Some (_tracking_thread (self tracking_world)).
Proof.
  assert (Hrun : run [CallStart; Th (DoGrab 0 (GrabOk 0%Q))] init = Some tracking_world)
    by reflexivity.
  split; [exact Hrun|]. split; [reflexivity|].
  exact (proj1 (proj1 (X12_flag_set_iff_thread_recorded _ tracking_world Hrun)) eq_refl).
Defined.

(** X13.  [start_tracking()] twice in a row is [start_tracking()] once plus
    the message: whatever the tracker was, the second call spawns nothing,
    changes no field and only prints "Tracking is already in progress.". *)
Theorem X13_start_tracking_twice {A : Type} `{V : Variant A} (w : World A) :
  start_tracking (snd (start_tracking w))
  = (Returns (),
     print (Stdout "Tracking is already in progress.") (snd (start_tracking w))).
Proof.
  destruct (_tracking_thread (self w)) as [tid|] eqn:Hth.
  - rewrite (start_tracking_busy w tid Hth). simpl.
    by apply (start_tracking_busy _ tid).
  - rewrite (start_tracking_idle w Hth). simpl.
    by apply (start_tracking_busy _ (length (threads w))).
Qed.

(** X14.  [stop_tracking()] right after a [stop_tracking()] that returned
    does nothing, whatever the tracker was and whatever the loop threads
    would do meanwhile. *)
Theorem X14_stop_tracking_twice
  {A : Type} `{V : Variant A} (d1 d2 : list ThAction) (w w1 : World A)
  (c : Completion unit) :
  stop_tracking d1 w = Some (c, w1) ->
  stop_tracking d2 w1 = Some (Returns (), w1).
Proof.
  unfold stop_tracking at 1.
  destruct (_tracking_thread (self w)) as [tid|] eqn:Hth.
  - destruct (_is_running (self w)) eqn:Hflag.
    + destruct (run_threads d1 (set_is_running false w)) as [w'|]; [|done].
      simpl. intros [= _ <-]. reflexivity.
    + intros [= _ <-]. unfold stop_tracking. by rewrite Hth, Hflag.
  - intros [= _ <-]. unfold stop_tracking. by rewrite Hth.
Qed.

Lemma X14_stop_tracking_twice_witness :
  stop_tracking [] tracking_world = Some (Returns (), timed_out_world)
  /\ stop_tracking [DoRead 0 (Yield (horizontal 1 1%Q))] timed_out_world
     = Some (Returns (), timed_out_world).
Proof.
  assert (H1 : stop_tracking [] tracking_world = Some (Returns (), timed_out_world))
    by reflexivity.
  split; [exact H1|].
  exact (X14_stop_tracking_twice [] [DoRead 0 (Yield (horizontal 1 1%Q))]
           tracking_world timed_out_world (Returns ()) H1).
Defined.

(** ** What happens after a stop *)

Lemma xcount_thread_step_flag_cleared a (w w' : World XCount.Fields) :
  _is_running (self w) = false ->
  thread_step a w = Some w' ->
  fields (self w') = fields (self w).
Proof.
  intros Hflag. destruct a as [tid r|tid r|tid r].
  - simpl. case_decide; [|done]. intros [= <-].
    destruct r as [t0|e]; unfold _event_loop_grab, _event_loop_except; simpl; [done|].
    by destruct (is_Exception e).
  - by apply thread_step_flag_cleared.
  - by apply thread_step_flag_cleared.
Qed.

Lemma xcount_run_threads_flag_cleared acts : forall (w w' : World XCount.Fields),
  _is_running (self w) = false ->
  run_threads acts w = Some w' ->
  fields (self w') = fields (self w).
Proof.
  induction acts as [|a acts IH]; intros w w' Hflag Hrun; simpl in Hrun.
  - by inversion Hrun; subst.
  - destruct (thread_step a w) as [w1|] eqn:Hstep; [|done]. simpl in Hrun.
    rewrite (IH w1 w') by
      (done || (destruct (thread_step_lifecycle _ _ _ Hstep) as (_ & -> & _); done)).
    by eapply xcount_thread_step_flag_cleared.
Qed.

(** X15.  In the scalar variant the total is final once [stop_tracking()]
    has returned: whatever the loop threads do afterwards (events that still
    arrive, a loop that was spawned but had not grabbed yet, the [finally]
    blocks), [get_total_x_movement()] keeps returning the same value until
    the tracker is started again. *)
Theorem X15_total_is_final_after_stop
  (sched : list Action) (during later : list ThAction)
  (w w1 w2 : World XCount.Fields) (c : Completion unit) :
  run sched init = Some w ->
  stop_tracking during w = Some (c, w1) ->
  run_threads later w1 = Some w2 ->
  XCount.get_total_x_movement w2 = XCount.get_total_x_movement w1.
Proof.
  intros Hreach Hstop Hlater. unfold XCount.get_total_x_movement.
  destruct (stop_tracking_clears_flag _ _ _ _ _ Hreach Hstop) as [Hflag _].
  by rewrite (xcount_run_threads_flag_cleared later w1 w2 Hflag Hlater).
Qed.

Lemma X15_total_is_final_after_stop_witness :
  run [CallStart; Th (DoGrab 0 (GrabOk 0%Q))] init = Some tracking_world
  /\ stop_tracking [] tracking_world = Some (Returns (), timed_out_world)
  /\ run_threads [DoRead 0 (Yield (horizontal 9 1%Q)); DoUngrab 0 UngrabOk] timed_out_world
     = Some (default init
               (run_threads [DoRead 0 (Yield (horizontal 9 1%Q)); DoUngrab 0 UngrabOk]
                  timed_out_world))
  /\ XCount.get_total_x_movement
       (default init
          (run_threads [DoRead 0 (Yield (horizontal 9 1%Q)); DoUngrab 0 UngrabOk]
             timed_out_world))
     = XCount.get_total_x_movement timed_out_world.
Proof.
  split; [reflexivity|]. split; [reflexivity|]. split; [reflexivity|].
  exact (X15_total_is_final_after_stop
           [CallStart; Th (DoGrab 0 (GrabOk 0%Q))] []
           [DoRead 0 (Yield (horizontal 9 1%Q)); DoUngrab 0 UngrabOk]
           tracking_world timed_out_world _ (Returns ()) eq_refl eq_refl eq_refl).
Defined.

Lemma tester_thread_step_flag_cleared a (w w' : World Tester.Fields) :
  _is_running (self w) = false ->
  thread_step a w = Some w' ->
  Tester._current_x (fields (self w')) = Tester._current_x (fields (self w))
  /\ Tester._current_y (fields (self w')) = Tester._current_y (fields (self w))
  /\ exists q, Tester.get_path w' = Tester.get_path w ++ q
               /\ Forall (fun p => Tester.point_xy p
                                   = (Tester._current_x (fields (self w)),
                                      Tester._current_y (fields (self w)))) q.
Proof.
  intros Hflag. destruct a as [tid r|tid r|tid r].
  - simpl. case_decide; [|done]. intros [= <-].
    destruct r as [t0|e]; unfold _event_loop_grab, _event_loop_except; simpl.
    + split; [done|]. split; [done|]. eexists. split; [reflexivity|].
      by repeat constructor.
    + destruct (is_Exception e); simpl;
        (split; [done|]; split; [done|]; exists []; by rewrite app_nil_r).
  - intros Hstep.
    pose proof (thread_step_flag_cleared (DoRead tid r) w w' eq_refl Hflag Hstep) as Hf.
    unfold Tester.get_path. rewrite Hf.
    split; [done|]. split; [done|]. exists []. by rewrite app_nil_r.
  - intros Hstep.
    pose proof (thread_step_flag_cleared (DoUngrab tid r) w w' eq_refl Hflag Hstep) as Hf.
    unfold Tester.get_path. rewrite Hf.
    split; [done|]. split; [done|]. exists []. by rewrite app_nil_r.
Qed.

Lemma tester_run_threads_flag_cleared acts : forall (w w' : World Tester.Fields),
  _is_running (self w) = false ->
  run_threads acts w = Some w' ->
  Tester._current_x (fields (self w')) = Tester._current_x (fields (self w))
  /\ Tester._current_y (fields (self w')) = Tester._current_y (fields (self w))
  /\ exists q, Tester.get_path w' = Tester.get_path w ++ q
               /\ Forall (fun p => Tester.point_xy p
                                   = (Tester._current_x (fields (self w)),
                                      Tester._current_y (fields (self w)))) q.
Proof.
  induction acts as [|a acts IH]; intros w w' Hflag Hrun; simpl in Hrun.
  - inversion Hrun; subst. split; [done|]. split; [done|].
    exists []. by rewrite app_nil_r.
  - destruct (thread_step a w) as [w1|] eqn:Hstep; [|done]. simpl in Hrun.
    destruct (tester_thread_step_flag_cleared _ _ _ Hflag Hstep)
      as (Hx & Hy & q & Hq & Hall).
    assert (Hflag1 : _is_running (self w1) = false).
    { by destruct (thread_step_lifecycle _ _ _ Hstep) as (_ & -> & _). }
    destruct (IH w1 w' Hflag1 Hrun) as (Hx' & Hy' & q' & Hq' & Hall').
    split; [congruence|]. split; [congruence|].
    exists (q ++ q'). split; [by rewrite Hq', Hq, app_assoc|].
    apply Forall_app. split; [done|]. by rewrite Hx, Hy in Hall'.
Qed.

(** X16.  In the path variant the position is final once [stop_tracking()]
    has returned, but the path is not: a loop that was spawned and had not
    grabbed the device yet still appends its start point.  Whatever the loop
    threads do afterwards, [_current_x] and [_current_y] stay as they are, no
    recorded point is changed or removed, and every point that is appended
    lies at that position. *)
Theorem X16_position_is_final_after_stop
  (sched : list Action) (during later : list ThAction)
  (w w1 w2 : World Tester.Fields) (c : Completion unit) :
  run sched init = Some w ->
  stop_tracking during w = Some (c, w1) ->
  run_threads later w1 = Some w2 ->
  Tester._current_x (fields (self w2)) = Tester._current_x (fields (self w1))
  /\ Tester._current_y (fields (self w2)) = Tester._current_y (fields (self w1))
  /\ exists q, Tester.get_path w2 = Tester.get_path w1 ++ q
               /\ Forall (fun p => Tester.point_xy p
                                   = (Tester._current_x (fields (self w1)),
                                      Tester._current_y (fields (self w1)))) q.
Proof.
  intros Hreach Hstop Hlater.
  destruct (stop_tracking_clears_flag _ _ _ _ _ Hreach Hstop) as [Hflag _].
  by apply (tester_run_threads_flag_cleared later).
Qed.

Lemma X16_position_is_final_after_stop_witness :
  run [CallStart] init = Some (snd (start_tracking (init : World Tester.Fields)))
  /\ stop_tracking [] (snd (start_tracking (init : World Tester.Fields)))
     = Some (Returns (), stopped_before_grab)
  /\ run_threads [DoGrab 0 (GrabOk 5%Q)] stopped_before_grab = Some late_start_point
  /\ Tester.get_path stopped_before_grab = []
  /\ Tester.get_path late_start_point = [(5%Q, 0, 0)]
  /\ Tester._current_x (fields (self late_start_point))
     = Tester._current_x (fields (self stopped_before_grab)).
Proof.
  split; [reflexivity|]. split; [reflexivity|]. split; [reflexivity|].
  split; [reflexivity|]. split; [reflexivity|].
  exact (proj1 (X16_position_is_final_after_stop
                  [CallStart] [] [DoGrab 0 (GrabOk 5%Q)]
                  (snd (start_tracking (init : World Tester.Fields)))
                  stopped_before_grab late_start_point (Returns ())
                  eq_refl eq_refl eq_refl)).
Defined.

(** ** The path only grows *)

Lemma event_body_path_grows e (f : Tester.Fields) :
  Tester.path_data f `prefix_of` Tester.path_data (Tester.event_body e f).
Proof.
  unfold Tester.event_body. destruct (type e =? ecodes.EV_REL); [|done].
  destruct (code e =? ecodes.REL_X); [by eexists|].
  destruct (code e =? ecodes.REL_Y); by eexists.
Qed.

Lemma tester_thread_step_path_grows a (w w' : World Tester.Fields) :
  thread_step a w = Some w' -> Tester.get_path w `prefix_of` Tester.get_path w'.
Proof.
  unfold Tester.get_path.
  destruct a as [tid r|tid r|tid r]; simpl; case_decide; try done; intros [= <-].
  - destruct r as [t0|e]; unfold _event_loop_grab, _event_loop_except; simpl.
    + by eexists.
    + by destruct (is_Exception e).
  - destruct r as [ev| |e]; unfold _event_loop_read, _event_loop_except; simpl.
    + destruct (_is_running (self w)); simpl; [apply event_body_path_grows|done].
    + done.
    + by destruct (is_Exception e).
  - unfold _event_loop_finally. by destruct r.
Qed.

Lemma tester_run_path_grows sched (w w' : World Tester.Fields) :
  run sched w = Some w' -> Tester.get_path w `prefix_of` Tester.get_path w'.
Proof.
  apply (run_preserves (fun w' => Tester.get_path w `prefix_of` Tester.get_path w')).
  - intros w0 Hw0. destruct (_tracking_thread (self w0)) as [tid0|] eqn:Hth.
    + by rewrite (start_tracking_busy w0 tid0 Hth).
    + by rewrite (start_tracking_idle w0 Hth).
  - intros a w0 w1 Hw0 Hstep. etrans; [exact Hw0|].
    by eapply tester_thread_step_path_grows.
  - done.
  - done.
  - done.
  - done.
Qed.

(** X17.  The recorded path only grows: along any run of the program, from
    any state of the path tracker, the path before is a prefix of the path
    after.  No call of the lifecycle methods and no step of a loop removes,
    reorders or rewrites a recorded point. *)
Theorem X17_path_only_grows (sched : list Action) (w w' : World Tester.Fields) :
  run sched w = Some w' ->
  Tester.get_path w `prefix_of` Tester.get_path w'.
Proof. apply tester_run_path_grows. Qed.

Lemma X17_path_only_grows_witness :
  run second_session stopped_by_flag_path = Some restarted_path
  /\ Tester.get_path stopped_by_flag_path = [(0%Q, 0, 0); (1%Q, 5, 0)]
  /\ Tester.get_path stopped_by_flag_path `prefix_of` Tester.get_path restarted_path.
Proof.
  split; [reflexivity|]. split; [reflexivity|].
  exact (X17_path_only_grows second_session stopped_by_flag_path restarted_path eq_refl).
Defined.

(** ** The two variants side by side *)

Lemma event_bodies_in_step e (fx : XCount.Fields) (fp : Tester.Fields) :
  XCount._total_x_movement fx = Tester._current_x fp ->
  XCount._total_x_movement (XCount.event_body e fx)
  = Tester._current_x (Tester.event_body e fp).
Proof.
  intros H. unfold XCount.event_body, Tester.event_body.
  destruct (type e =? ecodes.EV_REL); [|done].
  destruct (code e =? ecodes.REL_X); simpl; [by rewrite H|].
  by destruct (code e =? ecodes.REL_Y).
Qed.

Lemma in_step_thread_step a wx wp :
  in_step wx wp ->
  match thread_step a wx, thread_step a wp with
  | Some wx', Some wp' => in_step wx' wp'
  | None, None => True
  | _, _ => False
  end.
Proof.
  intros (Hth & Hflag & Hths & Hg & Hlog & Htot).
  destruct a as [tid r|tid r|tid r]; simpl; rewrite <- Hths.
  - case_decide; [|done]. unfold in_step.
    destruct r as [t0|e]; unfold _event_loop_grab, _event_loop_except; simpl.
    + by rewrite Hth, Hflag, Hths, Hlog.
    + destruct (is_Exception e); simpl; by rewrite Hth, Hflag, Hths, Hlog, Hg.
  - case_decide; [|done]. unfold in_step.
    destruct r as [ev| |e]; unfold _event_loop_read, _event_loop_except; simpl.
    + rewrite <- Hflag. destruct (_is_running (self wx)) eqn:Hrun; simpl.
      * rewrite <- Hth, Hths, Hlog, Hg, Hrun.
        repeat split; try done. by apply event_bodies_in_step.
      * by rewrite <- Hth, Hths, Hlog, Hg, Hrun.
    + by rewrite Hth, Hflag, Hths, Hlog, Hg.
    + destruct (is_Exception e); simpl; by rewrite Hth, Hflag, Hths, Hlog, Hg.
  - case_decide; [|done]. unfold in_step, _event_loop_finally.
    destruct r; simpl; by rewrite Hth, Hflag, Hths, Hlog.
Qed.

Lemma in_step_run_threads acts : forall wx wp,
  in_step wx wp ->
  match run_threads acts wx, run_threads acts wp with
  | Some wx', Some wp' => in_step wx' wp'
  | None, None => True
  | _, _ => False
  end.
Proof.
  induction acts as [|a acts IH]; intros wx wp Hin; simpl; [done|].
  pose proof (in_step_thread_step a wx wp Hin) as Hstep.
  destruct (thread_step a wx) as [wx1|], (thread_step a wp) as [wp1|]; try done.
  simpl. by apply IH.
Qed.

Lemma in_step_step a wx wp :
  in_step wx wp ->
  match step a wx, step a wp with
  | Some wx', Some wp' => in_step wx' wp'
  | None, None => True
  | _, _ => False
  end.
Proof.
  intros Hin. destruct a as [|during|a]; simpl.
  - destruct Hin as (Hth & Hflag & Hths & Hg & Hlog & Htot).
    unfold start_tracking. rewrite <- Hth.
    destruct (_tracking_thread (self wx)) eqn:Hx; unfold in_step; simpl.
    + repeat split; congruence.
    + repeat split; congruence.
  - unfold stop_tracking.
    destruct Hin as (Hth & Hflag & Hths & Hg & Hlog & Htot).
    rewrite <- Hth, <- Hflag.
    destruct (_tracking_thread (self wx)) as [tid|] eqn:Hx; simpl;
      [|unfold in_step; repeat split; congruence].
    destruct (_is_running (self wx)) eqn:Hr; simpl;
      [|unfold in_step; repeat split; congruence].
    assert (Hin' : in_step (set_is_running false wx) (set_is_running false wp)).
    { unfold in_step; simpl. repeat split; congruence. }
    pose proof (in_step_run_threads during _ _ Hin') as Hrun.
    destruct (run_threads during (set_is_running false wx)) as [wx1|],
      (run_threads during (set_is_running false wp)) as [wp1|]; try done.
    simpl. destruct Hrun as (E1 & E2 & E3 & E4 & E5 & E6).
    unfold in_step; simpl. repeat split; congruence.
  - by apply in_step_thread_step.
Qed.

Lemma in_step_run sched : forall wx wp,
  in_step wx wp ->
  match run sched wx, run sched wp with
  | Some wx', Some wp' => in_step wx' wp'
  | None, None => True
  | _, _ => False
  end.
Proof.
  induction sched as [|a sched IH]; intros wx wp Hin; simpl; [done|].
  pose proof (in_step_step a wx wp Hin) as Hstep.
  destruct (step a wx) as [wx1|], (step a wp) as [wp1|]; try done.
  simpl. by apply IH.
Qed.

(** X18.  The two programs measure the same horizontal displacement.  Run on
    the same schedule of calls, events and environment answers from new
    trackers, the scalar tracker and the path tracker take the same steps
    (one run is possible exactly when the other is), make the same calls on
    the device, and the total of the first equals the x position of the
    second. *)
Theorem X18_total_equals_path_x (sched : list Action) :
  match run sched (init : World XCount.Fields), run sched (init : World Tester.Fields) with
  | Some wx, Some wp =>
    XCount.get_total_x_movement wx = Tester._current_x (fields (self wp))
    /\ threads wx = threads wp
    /\ dev_log wx = dev_log wp
    /\ _tracking_thread (self wx) = _tracking_thread (self wp)
  | None, None => True
  | _, _ => False
  end.
Proof.
  assert (Hinit : in_step (init : World XCount.Fields) (init : World Tester.Fields)).
  { by repeat split. }
  pose proof (in_step_run sched _ _ Hinit) as Hrun.
  destruct (run sched (init : World XCount.Fields)) as [wx|],
    (run sched (init : World Tester.Fields)) as [wp|]; try done.
  by destruct Hrun as (E1 & E2 & E3 & E4 & E5 & E6).
Qed.

(** ** Failures inside the loop *)

Section Failures.
Context {A : Type} `{V : Variant A}.
Implicit Types (w : World A).

Lemma run_read_failure tid evs e r w :
  threads w !! tid = Some InLoop ->
  _is_running (self w) = true ->
  exists w', run (read_failure tid evs e r) w = Some w'
    /\ fields (self w') = foldl (fun f ev => on_event ev f) (fields (self w)) evs
    /\ threads w' = <[tid:=Done]> (threads w)
    /\ grabbed w' = false
    /\ _tracking_thread (self w') = _tracking_thread (self w)
    /\ _is_running (self w') = true.
Proof.
  intros Hpc Hflag.
  assert (Hlt : (tid < length (threads w))%nat) by (by eapply lookup_lt_Some).
  unfold read_failure. rewrite run_app, run_deliver by done. simpl.
  rewrite decide_True by done. simpl.
  rewrite decide_True.
  2: { unfold _event_loop_read, _event_loop_except.
       destruct (is_Exception e); simpl; by apply list_lookup_insert_eq. }
  simpl. eexists. split; [reflexivity|].
  unfold _event_loop_finally, _event_loop_read, _event_loop_except.
  destruct r, (is_Exception e); simpl; by rewrite list_insert_insert_eq.
Qed.

Lemma run_failed_grab w e r :
  _tracking_thread (self w) = None ->
  exists w',
    run [CallStart; Th (DoGrab (length (threads w)) (GrabRaises e));
         Th (DoUngrab (length (threads w)) r)] w = Some w'
    /\ fields (self w') = fields (self w)
    /\ threads w' = threads w ++ [Done]
    /\ grabbed w' = false
    /\ calls (length (threads w)) Read (dev_log w') = calls (length (threads w)) Read (dev_log w)
    /\ _tracking_thread (self w') = Some (length (threads w))
    /\ _is_running (self w') = true.
Proof.
  intros Hth. simpl. rewrite (start_tracking_idle w Hth). simpl.
  rewrite decide_True by (by rewrite lookup_app_r, Nat.sub_diag).
  simpl. rewrite decide_True.
  2: { unfold _event_loop_grab, _event_loop_except.
       destruct (is_Exception e); simpl;
         (rewrite list_lookup_insert_eq; [done|rewrite length_app; simpl; lia]). }
  simpl. eexists. split; [reflexivity|].
  assert (Hins : forall pc pc', <[length (threads w):=pc]>
                                  (<[length (threads w):=pc']> (threads w ++ [AtGrab]))
                                = threads w ++ [pc]).
  { intros pc pc'. rewrite list_insert_insert_eq.
    rewrite insert_app_r_alt, Nat.sub_diag by lia. done. }
  unfold _event_loop_finally, _event_loop_grab, _event_loop_except.
  destruct r, (is_Exception e); simpl; rewrite Hins, !calls_snoc;
    rewrite !bool_decide_eq_false_2 by congruence; rewrite ?Nat.add_0_r; done.
Qed.

End Failures.

(** X19.  A read error keeps what was measured.  When the loop of a new
    tracker has processed the events [evs] and the next read raises (the
    device is unplugged, say), the loop terminates through its [finally]
    block with the device released, and the results stand: the scalar total
    is the sum of the horizontal values of [evs], the path holds the start
    point and one point per relative event, and the position is the one
    [evs] lead to. *)
Theorem X19_read_error_keeps_the_results
  (t0 : Time) (evs : list InputEvent) (e : PyExc) (r : UngrabResult) :
  (exists wx, run (session 0 t0 evs ++ [Th (DoRead 0 (ReadRaises e)); Th (DoUngrab 0 r)])
                  (init : World XCount.Fields) = Some wx
     /\ XCount.get_total_x_movement wx = sum_x evs
     /\ threads wx = [Done] /\ grabbed wx = false)
  /\ (exists wp, run (session 0 t0 evs ++ [Th (DoRead 0 (ReadRaises e)); Th (DoUngrab 0 r)])
                     (init : World Tester.Fields) = Some wp
     /\ map Tester.point_time (Tester.get_path wp)
        = t0 :: map timestamp (List.filter is_rel evs)
     /\ Tester._current_x (fields (self wp)) = sum_x evs
     /\ Tester._current_y (fields (self wp)) = - sum_y evs
     /\ threads wp = [Done] /\ grabbed wp = false).
Proof.
  split.
  - destruct (run_read_failure 0 evs e r
                (_event_loop_grab 0 (GrabOk t0)
                   (snd (start_tracking (init : World XCount.Fields)))))
      as (wx & Hrun & Hf & Hths & Hg & _); [done|done|].
    exists wx. split.
    { unfold session. simpl. unfold read_failure in Hrun. exact Hrun. }
    unfold XCount.get_total_x_movement. rewrite Hf, Hths. simpl.
    by rewrite xcount_fold_total.
  - destruct (run_read_failure 0 evs e r
                (_event_loop_grab 0 (GrabOk t0)
                   (snd (start_tracking (init : World Tester.Fields)))))
      as (wp & Hrun & Hf & Hths & Hg & _); [done|done|].
    exists wp. split.
    { unfold session. simpl. unfold read_failure in Hrun. exact Hrun. }
    unfold Tester.get_path. rewrite Hf, Hths. simpl.
    destruct (tester_fold evs (Tester.record_start t0 init_fields))
      as (q & Hpath & Htimes & Hx & Hy).
    simpl in *. rewrite Hpath, Hx, Hy. simpl. rewrite Htimes.
    repeat split; try done; lia.
Qed.

(** X20.  After a grab that fails, the loop thread terminates through its
    [finally] block without reading the device and without touching the
    results, but the tracker still records it with the flag set: a further
    [start_tracking()] is refused although no loop is running, until
    [stop_tracking()] is called. *)
Theorem X20_failed_grab_leaves_the_tracker_tracking
  {A : Type} `{V : Variant A} (w : World A) (e : PyExc) (r : UngrabResult) :
  _tracking_thread (self w) = None ->
  exists w',
    run [CallStart; Th (DoGrab (length (threads w)) (GrabRaises e));
         Th (DoUngrab (length (threads w)) r)] w = Some w'
    /\ fields (self w') = fields (self w)
    /\ threads w' = threads w ++ [Done]
    /\ calls (length (threads w)) Read (dev_log w')
       = calls (length (threads w)) Read (dev_log w)
    /\ _tracking_thread (self w') = Some (length (threads w))
    /\ _is_running (self w') = true
    /\ threads (snd (start_tracking w')) = threads w'
    /\ console (snd (start_tracking w'))
       = console w' ++ [Stdout "Tracking is already in progress."].
Proof.
  intros Hth. destruct (run_failed_grab w e r Hth)
    as (w' & Hrun & Hf & Hths & Hg & Hcalls & Hrec & Hflag).
  exists w'. rewrite (start_tracking_busy w' _ Hrec). by repeat split.
Qed.

Lemma X20_failed_grab_witness :
  _tracking_thread (self (init : World XCount.Fields)) = None
  /\ exists w',
       run [CallStart; Th (DoGrab 0 (GrabRaises no_such_device));
            Th (DoUngrab 0 (UngrabRaises no_such_device))]
           (init : World XCount.Fields) = Some w'
       /\ threads w' = [Done]
       /\ _tracking_thread (self w') = Some 0%nat.
Proof.
  split; [reflexivity|].
  destruct (X20_failed_grab_leaves_the_tracker_tracking
              (init : World XCount.Fields) no_such_device (UngrabRaises no_such_device)
              eq_refl)
    as (w' & Hrun & _ & Hths & _ & Hrec & _).
  exists w'. split; [exact Hrun|]. split; [exact Hths | exact Hrec].
Defined.

(** ** Events the loop ignores *)

Lemma xcount_fold_filter evs : forall f : XCount.Fields,
  foldl (fun f e => XCount.event_body e f) f evs
  = foldl (fun f e => XCount.event_body e f) f (List.filter is_rel_x evs).
Proof.
  induction evs as [|e evs IH]; intros f; [done|]. simpl.
  destruct (is_rel_x e) eqn:Hrel; simpl; [apply IH|].
  rewrite <- IH. f_equal. unfold XCount.event_body.
  unfold is_rel_x, is_rel in Hrel.
  by destruct (type e =? ecodes.EV_REL), (code e =? ecodes.REL_X).
Qed.

Lemma tester_fold_filter evs : forall f : Tester.Fields,
  foldl (fun f e => Tester.event_body e f) f evs
  = foldl (fun f e => Tester.event_body e f) f (List.filter is_rel evs).
Proof.
  induction evs as [|e evs IH]; intros f; [done|]. simpl.
  destruct (is_rel e) eqn:Hrel; simpl; [apply IH|].
  rewrite <- IH. f_equal. unfold Tester.event_body. unfold is_rel in Hrel.
  by rewrite Hrel.
Qed.

(** X21.  Events that are not relative motion (key presses, synchronisation
    reports) are invisible in the results, and so are, for the scalar total,
    relative events on any axis but [REL_X]: a session gives the same total
    as the session with only its [REL_X] events, and the same path as the
    session with only its relative events. *)
Theorem X21_other_events_are_invisible (t0 : Time) (evs : list InputEvent) :
  (exists wx wx',
      run (session 0 t0 evs) (init : World XCount.Fields) = Some wx
      /\ run (session 0 t0 (List.filter is_rel_x evs)) (init : World XCount.Fields)
         = Some wx'
      /\ XCount.get_total_x_movement wx = XCount.get_total_x_movement wx')
  /\ (exists wp wp',
      run (session 0 t0 evs) (init : World Tester.Fields) = Some wp
      /\ run (session 0 t0 (List.filter is_rel evs)) (init : World Tester.Fields)
         = Some wp'
      /\ Tester.get_path wp = Tester.get_path wp').
Proof.
  split.
  - eexists _, _. split; [|split].
    + unfold session. simpl. unfold _event_loop_grab; simpl. apply run_deliver; done.
    + unfold session. simpl. unfold _event_loop_grab; simpl. apply run_deliver; done.
    + unfold XCount.get_total_x_movement, events_done; simpl.
      by rewrite xcount_fold_filter.
  - eexists _, _. split; [|split].
    + unfold session. simpl. unfold _event_loop_grab; simpl. apply run_deliver; done.
    + unfold session. simpl. unfold _event_loop_grab; simpl. apply run_deliver; done.
    + unfold Tester.get_path, events_done; simpl.
      by rewrite tester_fold_filter.
Qed.

(** ** The device protocol of a loop thread *)

Lemma calls_of_snoc tid log tid0 op :
  calls_of tid (log ++ [(tid0, op)])
  = if decide (tid0 = tid) then calls_of tid log ++ [op] else calls_of tid log.
Proof.
  unfold calls_of. rewrite List.filter_app. simpl.
  destruct (decide (tid0 = tid)) as [->|Hne].
  - rewrite bool_decide_eq_true_2 by done. by rewrite List.map_app.
  - rewrite bool_decide_eq_false_2 by done. by rewrite app_nil_r.
Qed.

Lemma repeat_snoc {B} (x : B) n : repeat x n ++ [x] = repeat x (S n).
Proof. induction n as [|n IH]; [done|]. simpl. by rewrite IH. Qed.

Section Protocol.
Context {A : Type} `{V : Variant A}.
Implicit Types (w : World A).

Lemma protocol_device_step w w' tid0 pc0 pc1 op :
  protocol_kept w ->
  threads w !! tid0 = Some pc0 ->
  threads w' = <[tid0:=pc1]> (threads w) ->
  dev_log w' = dev_log w ++ [(tid0, op)] ->
  (forall ops, follows_protocol (Some pc0) ops -> follows_protocol (Some pc1) (ops ++ [op])) ->
  protocol_kept w'.
Proof.
  intros Hw Hpc0 Hths Hlog Hnext tid.
  assert (Hlt : (tid0 < length (threads w))%nat) by (by eapply lookup_lt_Some).
  rewrite Hths, Hlog, calls_of_snoc. specialize (Hw tid).
  destruct (decide (tid0 = tid)) as [->|Hne].
  - rewrite list_lookup_insert_eq by done. apply Hnext. by rewrite <- Hpc0.
  - by rewrite list_lookup_insert_ne.
Qed.

Lemma protocol_grab ops pc1 :
  pc1 = InLoop \/ pc1 = AtFinally ->
  follows_protocol (Some AtGrab) ops -> follows_protocol (Some pc1) (ops ++ [Grab]).
Proof. intros [->| ->] ->; by exists 0%nat. Qed.

Lemma protocol_read ops pc1 :
  pc1 = InLoop \/ pc1 = AtFinally ->
  follows_protocol (Some InLoop) ops -> follows_protocol (Some pc1) (ops ++ [Read]).
Proof.
  intros Hpc1 [n ->].
  assert (Hops : (Grab :: repeat Read n) ++ [Read] = Grab :: repeat Read (S n)).
  { change ((Grab :: repeat Read n) ++ [Read]) with (Grab :: (repeat Read n ++ [Read])).
    by rewrite repeat_snoc. }
  rewrite Hops. destruct Hpc1 as [->| ->]; by exists (S n).
Qed.

Lemma protocol_ungrab ops :
  follows_protocol (Some AtFinally) ops -> follows_protocol (Some Done) (ops ++ [Ungrab]).
Proof. intros [n ->]. by exists n. Qed.

Lemma protocol_thread_step a w w' :
  protocol_kept w -> thread_step a w = Some w' -> protocol_kept w'.
Proof.
  intros Hw. destruct a as [tid r|tid r|tid r]; simpl; case_decide as Hpc; try done;
    intros [= <-].
  - destruct r as [t0|e].
    + apply (protocol_device_step w _ tid AtGrab InLoop Grab); try done.
      intros ops. apply protocol_grab. by left.
    + apply (protocol_device_step w _ tid AtGrab AtFinally Grab); try done.
      * unfold _event_loop_grab, _event_loop_except. by destruct (is_Exception e).
      * unfold _event_loop_grab, _event_loop_except. by destruct (is_Exception e).
      * intros ops. apply protocol_grab. by right.
  - destruct r as [ev| |e]; unfold _event_loop_read; simpl.
    + destruct (_is_running (self w)); simpl.
      * apply (protocol_device_step w _ tid InLoop InLoop Read); try done.
        -- simpl. by rewrite list_insert_id.
        -- intros ops. apply protocol_read. by left.
      * apply (protocol_device_step w _ tid InLoop AtFinally Read); try done.
        intros ops. apply protocol_read. by right.
    + apply (protocol_device_step w _ tid InLoop AtFinally Read); try done.
      intros ops. apply protocol_read. by right.
    + apply (protocol_device_step w _ tid InLoop AtFinally Read); try done.
      * unfold _event_loop_except. by destruct (is_Exception e).
      * unfold _event_loop_except. by destruct (is_Exception e).
      * intros ops. apply protocol_read. by right.
  - apply (protocol_device_step w _ tid AtFinally Done Ungrab); try done.
    + unfold _event_loop_finally. by destruct r.
    + unfold _event_loop_finally. by destruct r.
    + apply protocol_ungrab.
Qed.

Lemma protocol_start w : protocol_kept w -> protocol_kept (snd (start_tracking w)).
Proof.
  intros Hw. destruct (_tracking_thread (self w)) as [tid0|] eqn:Hth.
  { by rewrite (start_tracking_busy w tid0). }
  rewrite start_tracking_idle by done. intros tid. simpl. specialize (Hw tid).
  destruct (decide (tid < length (threads w))%nat) as [Hlt|Hge].
  - by rewrite lookup_app_l.
  - rewrite lookup_ge_None_2 in Hw by lia. simpl in Hw. rewrite Hw.
    destruct ((threads w ++ [AtGrab]) !! tid) as [pc|] eqn:Hpc; [|done].
    rewrite lookup_app_r in Hpc by lia.
    destruct (tid - length (threads w))%nat; [|done].
    by inversion Hpc; subst.
Qed.

Lemma protocol_reachable w : reachable w -> protocol_kept w.
Proof.
  apply (reachable_invariant protocol_kept).
  - apply protocol_start.
  - apply protocol_thread_step.
  - done.
  - done.
  - done.
  - intros tid. done.
Qed.

End Protocol.

(** X22.  Every loop thread uses the device in one fixed order: in every
    world the program reaches, in either variant, the calls a thread has
    made are empty before it runs, one [grab()] followed by reads while it is
    in its loop or about to run its [finally] block, and one [grab()], reads
    and one final [ungrab()] once it has terminated.  No thread reads before
    its grab or touches the device after its ungrab. *)
Theorem X22_loop_threads_follow_the_device_protocol
  {A : Type} `{V : Variant A} (sched : list Action) (w : World A) (tid : nat) :
  run sched init = Some w ->
  follows_protocol (threads w !! tid) (calls_of tid (dev_log w)).
Proof. intros Hrun. apply protocol_reachable. by exists sched. Qed.

Lemma X22_device_protocol_witness :
  run stop_by_flag init = Some stopped_by_flag
  /\ threads stopped_by_flag !! 0%nat = Some Done
  /\ calls_of 0 (dev_log stopped_by_flag) = [Grab; Read; Read; Ungrab]
  /\ follows_protocol (threads stopped_by_flag !! 0%nat)
       (calls_of 0 (dev_log stopped_by_flag)).
Proof.
  split; [reflexivity|]. split; [reflexivity|]. split; [reflexivity|].
  exact (X22_loop_threads_follow_the_device_protocol
           stop_by_flag stopped_by_flag 0 eq_refl).
Defined.

(** ** [main] *)

Lemma run_map_Th {A} `{V : Variant A} acts : forall w : World A,
  run (map Th acts) w = run_threads acts w.
Proof.
  induction acts as [|a acts IH]; intros w; simpl; [done|].
  destruct (thread_step a w) as [w1|]; simpl; [apply IH|done].
Qed.

Lemma run_threads_loop_reads {A} `{V : Variant A} t0 evs out :
  run_threads (loop_reads 0 t0 evs) (snd (start_tracking (init_with_console out)))
  = Some (events_done 0 evs
            (_event_loop_grab 0 (GrabOk t0)
               (snd (start_tracking (init_with_console out : World A))))).
Proof.
  unfold loop_reads. simpl.
  rewrite <- run_map_Th, List.map_map. by apply (run_deliver 0 evs).
Qed.

(** While no thread is waiting to grab and the flag is cleared, the loop
    threads leave the results alone. *)
Lemma run_threads_no_pending_grab {A} `{V : Variant A} acts : forall w w' : World A,
  Forall (fun pc => pc <> AtGrab) (threads w) ->
  _is_running (self w) = false ->
  run_threads acts w = Some w' ->
  fields (self w') = fields (self w).
Proof.
  induction acts as [|a acts IH]; intros w w' Hths Hflag Hrun; simpl in Hrun.
  - by inversion Hrun; subst.
  - destruct (thread_step a w) as [w1|] eqn:Hstep; [|done]. simpl in Hrun.
    assert (Hng : no_grab a = true).
    { destruct a as [tid r|tid r|tid r]; try done. simpl in Hstep.
      case_decide as Hpc; [|done].
      by destruct (proj1 (Forall_lookup _ _) Hths tid AtGrab Hpc). }
    rewrite (IH w1 w'); [by eapply thread_step_flag_cleared| |
      by destruct (thread_step_lifecycle _ _ _ Hstep) as (_ & -> & _) | done].
    destruct a as [tid r|tid r|tid r]; try done; simpl in Hstep;
      case_decide; try done; injection Hstep as <-.
    + destruct r as [ev| |e]; unfold _event_loop_read, _event_loop_except; simpl.
      * rewrite Hflag; simpl. by apply Forall_insert.
      * by apply Forall_insert.
      * destruct (is_Exception e); simpl; by apply Forall_insert.
    + unfold _event_loop_finally. destruct r; simpl; by apply Forall_insert.
Qed.

Lemma startup_tracker env out path :
  startup env = (out, inr path) ->
  euid env = 0
  /\ exists out1 mice nm device_name,
       find_all_mice (devfs env) = (out1, Returns mice)
       /\ (path, nm) ∈ mice
       /\ open_tracker env path = Returns device_name.
Proof.
  unfold startup.
  destruct (Z.eqb_spec (euid env) 0) as [Heuid|_]; simpl; [|done].
  destruct (find_all_mice (devfs env)) as [out1 [mice|e]] eqn:Hfind; [|done].
  case_bool_decide; [done|].
  pose proof (select_loop_chosen (int_of_line env) mice (typed_lines env) (menu mice))
    as Hsel. unfold select_mouse_device.
  destruct (select_loop (int_of_line env) mice (typed_lines env) (menu mice))
    as [out2 [p| |]]; simpl in Hsel; try done.
  destruct (open_tracker env p) as [device_name|e] eqn:Hopen;
    [|by destruct (is_Exception e)].
  intros [= _ <-]. split; [done|].
  destruct Hsel as (_ & n & nm & _ & _ & _ & Hlookup).
  exists out1, mice, nm, device_name. split; [done|]. split; [|done].
  by eapply list_elem_of_lookup_2.
Qed.

Lemma startup_exit env out outcome :
  startup env = (out, inl outcome) -> outcome <> Exit 0 /\ outcome <> Finished.
Proof.
  unfold startup.
  destruct (negb (euid env =? 0)); [by intros [= _ <-]|].
  destruct (find_all_mice (devfs env)) as [out1 [mice|e]]; [|by intros [= _ <-]].
  case_bool_decide; [by intros [= _ <-]|].
  destruct (select_mouse_device _ _ _) as [out2 [p| |]]; try by intros [= _ <-].
  destruct (open_tracker env p) as [device_name|e]; [done|].
  destruct (is_Exception e); by intros [= _ <-].
Qed.

(** X23.  Neither program measures anything on its own authority.  When
    [main] of mouse-xcount.py ends with exit status 0, or [main] of
    mousetester.py returns, the effective user was root, the enumeration
    returned a list of devices, the device whose path was handed to the
    tracker is one of that list, and opening it in the tracker succeeded. *)
Theorem X23_main_succeeds_only_on_a_selected_mouse (env : Env) (out : list Output) :
  (main_xcount env = Some (out, Exit 0)
   \/ exists plotted, main_tester env = Some (out, Finished, plotted)) ->
  euid env = 0
  /\ exists out1 mice path nm device_name,
       find_all_mice (devfs env) = (out1, Returns mice)
       /\ (path, nm) ∈ mice
       /\ open_tracker env path = Returns device_name.
Proof.
  intros Hmain.
  assert (Hstart : exists out0 path, startup env = (out0, inr path)).
  { destruct (startup env) as [out0 [outcome|path]] eqn:Hs; [|by eexists _, _].
    destruct (startup_exit _ _ _ Hs) as [Hne0 HneF]. exfalso.
    destruct Hmain as [Hx|[plotted Hp]].
    - unfold main_xcount in Hx. rewrite Hs in Hx. by injection Hx as _ ->.
    - unfold main_tester in Hp. rewrite Hs in Hp. by injection Hp as _ -> _. }
  destruct Hstart as (out0 & path & Hs).
  destruct (startup_tracker _ _ _ Hs) as (Heuid & out1 & mice & nm & dn & ?).
  split; [done|]. by exists out1, mice, path, nm, dn.
Qed.

(** X24.  The whole of mouse-xcount.py.  When root starts it, a device is
    selected and opens, SPACE is pressed twice, and between the two the loop
    grabs the device and reads the events [evs], the program prints, as its
    last line, the sum of the horizontal values of [evs] and exits with
    status 0, whatever the loop does while [stop_tracking()] joins. *)
Theorem X24_main_xcount_prints_the_sum
  (env : Env) (out0 out : list Output) (path : string) (keys1 keys2 : list string)
  (t0 : Time) (evs : list InputEvent) (outcome : MainOutcome) :
  startup env = (out0, inr path) ->
  wait_for_space (keys env) = Some keys1 ->
  wait_for_space keys1 = Some keys2 ->
  while_tracking env = loop_reads 0 t0 evs ->
  main_xcount env = Some (out, outcome) ->
  outcome = Exit 0 /\ last out = Some (total_line (sum_x evs)).
Proof.
  intros Hs Hk1 Hk2 Hsteps. unfold main_xcount.
  rewrite Hs, Hk1, Hsteps, run_threads_loop_reads. simpl. rewrite Hk2.
  unfold stop_tracking. simpl.
  destruct (run_threads (while_joining env) _) as [w3|] eqn:Hjoin; [|done].
  simpl. intros [= <- <-]. split; [done|].
  rewrite last_snoc. do 2 f_equal. unfold XCount.get_total_x_movement. simpl.
  eapply xcount_run_threads_flag_cleared in Hjoin; [|reflexivity].
  rewrite Hjoin. simpl. by rewrite xcount_fold_total.
Qed.

Lemma X24_main_xcount_witness :
  startup example_env = (fst (startup example_env), inr "/dev/input/event0")
  /\ wait_for_space (keys example_env) = Some [" "]
  /\ wait_for_space [" "] = Some []
  /\ while_tracking example_env
     = loop_reads 0 0%Q [horizontal 5 1%Q; horizontal (-2) 2%Q; horizontal 10 3%Q]
  /\ main_xcount example_env = Some (example_console, Exit 0)
  /\ last example_console
     = Some (total_line
               (sum_x [horizontal 5 1%Q; horizontal (-2) 2%Q; horizontal 10 3%Q]))
  /\ total_line (sum_x [horizontal 5 1%Q; horizontal (-2) 2%Q; horizontal 10 3%Q])
     = Stdout (nl +:+ "Total counts moved by the mouse in the x-direction: 13").
Proof.
  assert (Hs : startup example_env
               = (fst (startup example_env), inr "/dev/input/event0"))
    by (vm_compute; reflexivity).
  assert (Hm : main_xcount example_env = Some (example_console, Exit 0))
    by (vm_compute; reflexivity).
  split; [exact Hs|]. split; [reflexivity|]. split; [reflexivity|].
  split; [reflexivity|]. split; [exact Hm|]. split; [|reflexivity].
  exact (proj2 (X24_main_xcount_prints_the_sum example_env
                  (fst (startup example_env)) example_console "/dev/input/event0"
                  [" "] [] 0%Q
                  [horizontal 5 1%Q; horizontal (-2) 2%Q; horizontal 10 3%Q]
                  (Exit 0) Hs eq_refl eq_refl eq_refl Hm)).
Defined.

Lemma X23_main_succeeds_witness :
  (main_xcount example_env = Some (example_console, Exit 0)
   \/ exists plotted, main_tester example_env = Some (example_console, Finished, plotted))
  /\ euid example_env = 0
  /\ exists out1 mice path nm device_name,
       find_all_mice (devfs example_env) = (out1, Returns mice)
       /\ (path, nm) ∈ mice
       /\ open_tracker example_env path = Returns device_name.
Proof.
  assert (Hm : main_xcount example_env = Some (example_console, Exit 0)
               \/ exists plotted,
                    main_tester example_env = Some (example_console, Finished, plotted)).
  { left. vm_compute. reflexivity. }
  split; [exact Hm|].
  exact (X23_main_succeeds_only_on_a_selected_mouse example_env example_console Hm).
Defined.

Lemma plot_walk (t0 : Time) x y ms :
  ms <> [] ->
  plot_mouse_path ((t0, x, y) :: walk x y ms)
  = ([Stdout "Displaying plot. Close the plot window to exit the program."],
     Shown (map (fun t => ((t - t0) * 1000)%Q) (map Tester.point_time (walk x y ms)))
           (map dx ms) (map dy ms)).
Proof.
  intros Hms. destruct ms as [|m ms]; [done|].
  rewrite <- (deltas_walk_x (m :: ms) x y), <- (deltas_walk_y (m :: ms) x y).
  reflexivity.
Qed.

(** X25.  The whole of mousetester.py.  When root starts it, a device is
    selected and opens, and during the tracking time the loop grabs the
    device and reads the motion events [ms], at least one, the program
    returns after plotting one dot per event in each series: the horizontal
    deltas of the events and their negated vertical deltas, whatever the
    loop does while [stop_tracking()] joins. *)
Theorem X25_main_tester_plots_the_events
  (env : Env) (out0 out : list Output) (path : string)
  (t0 : Time) (ms : list MotionEvent) (outcome : MainOutcome)
  (plotted : option PlotOutcome) :
  startup env = (out0, inr path) ->
  while_tracking env = loop_reads 0 t0 (map raw ms) ->
  ms <> [] ->
  main_tester env = Some (out, outcome, plotted) ->
  outcome = Finished
  /\ last out = Some (Stdout "Displaying plot. Close the plot window to exit the program.")
  /\ exists plot_times,
       plotted = Some (Shown plot_times (map dx ms) (map dy ms))
       /\ length plot_times = length ms.
Proof.
  intros Hs Hsteps Hms. unfold main_tester.
  rewrite Hs, Hsteps, run_threads_loop_reads. simpl.
  unfold stop_tracking. simpl.
  destruct (run_threads (while_joining env) _) as [w3|] eqn:Hjoin; [|done].
  simpl. unfold Tester.get_path. simpl.
  eapply run_threads_no_pending_grab in Hjoin;
    [|by repeat constructor|reflexivity].
  rewrite Hjoin. simpl. rewrite tester_fold_walk. simpl.
  destruct (plot_mouse_path _) as [plot_out shown] eqn:Hplot.
  assert (Hshown : (plot_out, shown)
                   = ([Stdout "Displaying plot. Close the plot window to exit the program."],
                      Shown (map (fun t => ((t - t0) * 1000)%Q)
                               (map Tester.point_time (walk 0 0 ms)))
                            (map dx ms) (map dy ms))).
  { rewrite <- Hplot. exact (plot_walk t0 0 0 ms Hms). }
  injection Hshown as -> ->.
  intros [= <- <- <-]. split; [done|]. split; [by rewrite last_snoc|].
  eexists. split; [reflexivity|]. by rewrite !length_map, walk_length.
Qed.

Lemma X25_main_tester_witness :
  startup example_env_path = (fst (startup example_env_path), inr "/dev/input/event0")
  /\ while_tracking example_env_path = loop_reads 0 0%Q (map raw example_motion)
  /\ example_motion <> []
  /\ main_tester example_env_path = Some (example_console_path, Finished, example_plot)
  /\ exists plot_times,
       example_plot = Some (Shown plot_times [3; 0] [0; -4])
       /\ length plot_times = 2%nat.
Proof.
  assert (Hs : startup example_env_path
               = (fst (startup example_env_path), inr "/dev/input/event0"))
    by (vm_compute; reflexivity).
  assert (Hm : main_tester example_env_path
               = Some (example_console_path, Finished, example_plot))
    by (vm_compute; reflexivity).
  assert (Hne : example_motion <> []) by discriminate.
  split; [exact Hs|]. split; [reflexivity|]. split; [exact Hne|]. split; [exact Hm|].
  exact (proj2 (proj2 (X25_main_tester_plots_the_events example_env_path
                         (fst (startup example_env_path)) example_console_path
                         "/dev/input/event0" 0%Q example_motion Finished example_plot
                         Hs eq_refl Hne Hm))).
Defined.

(** ** The results of a second session *)

(** What the loop body of the path variant does over any list of events,
    point by point. *)
Lemma tester_fold_trace evs : forall f : Tester.Fields,
  foldl (fun f e => Tester.event_body e f) f evs
  = {| Tester.path_data :=
         Tester.path_data f ++ trace (Tester._current_x f) (Tester._current_y f) evs;
       Tester._current_x := Tester._current_x f + sum_x evs;
       Tester._current_y := Tester._current_y f - sum_y evs |}.
Proof.
  induction evs as [|e evs IH]; intros [p x y].
  - simpl. unfold sum_x, sum_y; simpl. rewrite app_nil_r. f_equal; lia.
  - simpl. rewrite IH. clear IH.
    unfold Tester.event_body, sum_x, sum_y, is_rel_x, is_rel_y, is_rel, rel_dx, rel_dy.
    simpl.
    destruct (type e =? ecodes.EV_REL) eqn:Hty; simpl; [|done].
    destruct (code e =? ecodes.REL_X) eqn:Hcx;
      destruct (code e =? ecodes.REL_Y) eqn:Hcy; simpl;
      try (exfalso; apply Z.eqb_eq in Hcx, Hcy;
           unfold ecodes.REL_X, ecodes.REL_Y in *; lia);
      rewrite <- app_assoc, ?Z.add_0_r; simpl; f_equal; lia.
Qed.

(** C3, amended.  A second session continues from what the tracker holds when
    it starts, in both variants.  After stop, start, the events [evs] of the
    second session and stop, the total is the total left by the first stop
    plus the sum of the horizontal values of [evs].  The path is the path
    left by the first stop, then the start point of the second session at
    the position left by the first stop, then one point per relative event of
    [evs], each at its predecessor's position moved by the event's value on
    its axis (the vertical value negated) and stamped with the event's time.
    Nothing else is recorded, except that a loop thread which grabs the
    device while the last stop joins appends its start point, at the final
    position; the position at the end is the one left by the first stop moved
    by the sums of [evs]. *)
Theorem C3_second_session_continues_the_first
  (wx wx' : World XCount.Fields) (wp wp' : World Tester.Fields)
  (d1 d2 : list ThAction) (t0 : Time) (evs : list InputEvent) :
  run (restart (length (threads wx)) d1 t0 evs d2) wx = Some wx' ->
  run (restart (length (threads wp)) d1 t0 evs d2) wp = Some wp' ->
  exists wx1 wp1 late,
    stop_tracking d1 wx = Some (Returns (), wx1)
    /\ stop_tracking d1 wp = Some (Returns (), wp1)
    /\ XCount.get_total_x_movement wx' = XCount.get_total_x_movement wx1 + sum_x evs
    /\ Tester.get_path wp'
       = Tester.get_path wp1
         ++ (t0, Tester._current_x (fields (self wp1)),
                 Tester._current_y (fields (self wp1)))
            :: trace (Tester._current_x (fields (self wp1)))
                     (Tester._current_y (fields (self wp1))) evs
         ++ late
    /\ Forall (fun p => Tester.point_xy p
                        = (Tester._current_x (fields (self wp1)) + sum_x evs,
                           Tester._current_y (fields (self wp1)) - sum_y evs)) late
    /\ (forallb no_grab d2 = true -> late = [])
    /\ Tester._current_x (fields (self wp'))
       = Tester._current_x (fields (self wp1)) + sum_x evs
    /\ Tester._current_y (fields (self wp'))
       = Tester._current_y (fields (self wp1)) - sum_y evs.
Proof.
  intros Hx Hp.
  destruct (run_restart wx wx' d1 t0 evs d2 Hx)
    as (wx1 & wx4 & wx5 & Hsx & Hfx & Hflagx & Hjx & Hex).
  destruct (run_restart wp wp' d1 t0 evs d2 Hp)
    as (wp1 & wp4 & wp5 & Hsp & Hfp & Hflagp & Hjp & Hep).
  destruct (tester_run_threads_flag_cleared d2 wp4 wp5 Hflagp Hjp)
    as (Hx5 & Hy5 & late & Hpath5 & Hlate).
  simpl in Hfp. rewrite tester_fold_trace in Hfp. simpl in Hfp.
  exists wx1, wp1, late. split; [done|]. split; [done|]. split.
  { unfold XCount.get_total_x_movement.
    rewrite Hex, (xcount_run_threads_flag_cleared d2 wx4 wx5 Hflagx Hjx), Hfx.
    simpl. by rewrite xcount_fold_total. }
  unfold Tester.get_path in *. rewrite Hep, Hpath5, Hx5, Hy5.
  rewrite Hfp in Hlate |- *. simpl in Hlate |- *.
  split; [by rewrite <- !app_assoc|]. split; [done|]. split; [|done].
  intros Hng.
  pose proof (run_threads_flag_cleared d2 wp4 wp5 Hng Hflagp Hjp) as Hsame.
  rewrite Hsame in Hpath5. symmetry in Hpath5.
  rewrite <- (app_nil_r (Tester.path_data (fields (self wp4)))) in Hpath5 at 2.
  by apply app_inv_head in Hpath5.
Qed.

(** The second session of the example run: its +1 is added to the total 5
    of the first session, and its two points follow the two points of the
    first session, from x = 5. *)
Lemma C3_second_session_witness :
  run second_session stopped_by_flag = Some restarted
  /\ run second_session stopped_by_flag_path = Some restarted_path
  /\ XCount.get_total_x_movement restarted
     = XCount.get_total_x_movement stopped_by_flag + sum_x [horizontal 1 4%Q]
  /\ Tester.get_path restarted_path
     = Tester.get_path stopped_by_flag_path
       ++ (3%Q, 5, 0) :: trace 5 0 [horizontal 1 4%Q] ++ [].
Proof.
  split; [reflexivity|]. split; [reflexivity|].
  destruct (C3_second_session_continues_the_first
              stopped_by_flag restarted stopped_by_flag_path restarted_path
              [] [] 3%Q [horizontal 1 4%Q] eq_refl eq_refl)
    as (wx1 & wp1 & late & Hsx & Hsp & Htotal & Hpath & _ & Hlate & _).
  injection Hsx as <-. injection Hsp as <-.
  rewrite (Hlate eq_refl) in Hpath.
  split; [exact Htotal | exact Hpath].
Defined.

(** ** The loop at the end of the program *)

(** [main_xcount_tracker] is the tracker of [main_xcount] when it exits with
    status 0: the console of the one is the output of the other. *)
Lemma main_xcount_tracker_spec env out :
  main_xcount env = Some (out, Exit 0) ->
  exists w, main_xcount_tracker env = Some w /\ out = console w.
Proof.
  unfold main_xcount, main_xcount_tracker.
  destruct (startup env) as [out0 [outcome|path]] eqn:Hs.
  { intros [= <- ->]. by destruct (startup_exit _ _ _ Hs). }
  destruct (wait_for_space (keys env)) as [keys1|]; [|done].
  destruct (run_threads (while_tracking env) _) as [w2|]; [|done]. simpl.
  destruct (wait_for_space keys1) as [keys2|]; [|done].
  destruct (stop_tracking (while_joining env) _) as [[c w3]|]; [|done]. simpl.
  intros [= <-]. by eexists.
Qed.

(** C4, refuted as stated.  The operator stops the measurement while the
    mouse is at rest.  The loop is blocked in its read, the join of
    [stop_tracking()] times out, [main] prints the total and exits with
    status 0.  The loop thread is a daemon thread and ends with the
    interpreter: it has grabbed the device and read one event, and it ends
    without having called [ungrab()], the device still grabbed by its file
    descriptor. *)
Lemma C4_counterexample :
  main_xcount mouse_at_rest = Some (console tracker_at_exit, Exit 0)
  /\ main_xcount_tracker mouse_at_rest = Some tracker_at_exit
  /\ threads tracker_at_exit = [InLoop]
  /\ grabbed tracker_at_exit = true
  /\ threads (interpreter_exit tracker_at_exit) !! 0%nat = Some Done
  /\ calls_of 0 (dev_log (interpreter_exit tracker_at_exit)) = [Grab; Read]
  /\ calls 0 Ungrab (dev_log (interpreter_exit tracker_at_exit)) = 0%nat.
Proof.
  split; [vm_compute; reflexivity|]. split; [vm_compute; reflexivity|].
  repeat split.
Qed.
